(** * Validation and error translation of the image-analysis proxy

    A shallow embedding of [utils/validation.js] (sanitizeUrl,
    validateImageUrl, validateFeatures) and of the two request handlers of
    [controllers/analyzeController.js] (analyzeFromUrl, analyzeFromUpload),
    followed by the properties of the request pipeline.

    Conventions.
    - A JavaScript string is a [string]: each [ascii] is one code unit, so
      the model has the code units 0..255.  Every character that the
      program's patterns and constants mention is in that range.
    - A JavaScript value is a [value]: the values a parsed JSON body can
      hold, and [VUndefined] for an absent property.  A number is the
      Number value of an integer; numbers with a fraction are outside the
      model.
    - What the platform provides and the repository only calls (the URL
      parser, JSON.parse, the HTTP client, the clock, the environment) is a
      parameter of the definitions that use it.  *)

From Stdlib Require Import String Ascii ZArith List Bool Lia DecimalString.
Import ListNotations.
Open Scope string_scope.
Set Warnings "-register-all".

(** ** JavaScript values and the built-ins the program uses *)

Module JS.

Inductive value : Type :=
| VUndefined
| VNull
| VBool (b : bool)
| VNum (n : Z)
| VStr (s : string)
| VArr (items : list value)
| VObj (props : list (string * value)).

(** ToBoolean: what [if (v)] and [!v] test. *)
Definition truthy (v : value) : bool :=
  match v with
  | VUndefined | VNull => false
  | VBool b => b
  | VNum n => negb (n =? 0)%Z
  | VStr s => negb (s =? "")
  | VArr _ | VObj _ => true
  end.

Definition typeof (v : value) : string :=
  match v with
  | VUndefined => "undefined"
  | VNull => "object"
  | VBool _ => "boolean"
  | VNum _ => "number"
  | VStr _ => "string"
  | VArr _ | VObj _ => "object"
  end.

Definition Array_isArray (v : value) : bool :=
  match v with VArr _ => true | _ => false end.

Definition nullish (v : value) : bool :=
  match v with VUndefined | VNull => true | _ => false end.

Fixpoint own (k : string) (props : list (string * value)) : option value :=
  match props with
  | [] => None
  | (k', v) :: rest => if k' =? k then Some v else own k rest
  end.

(** [v.k] for the property names the handlers read from upstream data
    (error, code, message), none of which a built-in prototype defines:
    the own property of a plain object, undefined on any other value, and
    a TypeError ([None]) on null and undefined. *)
Definition get_field (v : value) (k : string) : option value :=
  match v with
  | VUndefined | VNull => None
  | VObj props => Some (match own k props with Some x => x | None => VUndefined end)
  | _ => Some VUndefined
  end.

(** [v?.k] *)
Definition get_field_opt (v : value) (k : string) : value :=
  match get_field v k with Some x => x | None => VUndefined end.

(** [a || b] *)
Definition or_else (a b : value) : value := if truthy a then a else b.

(** [v === 'text'] *)
Definition strict_eq_str (v : value) (s : string) : bool :=
  match v with VStr t => t =? s | _ => false end.

(** [names.includes(v)] for an array of string constants. *)
Definition includes (names : list string) (v : value) : bool :=
  existsb (strict_eq_str v) names.

(** *** Numbers and their text

    [VNum n] stands for the Number value of the integer [n]: the double
    nearest to it, ties to even.  Up to 2^53 that is [n] itself. *)

Definition decimal (n : Z) : string := NilZero.string_of_int (Z.to_int n).

(** The double nearest to a positive integer, as an integer. *)
Definition to_double (n : Z) : Z :=
  let bits := (Z.log2 n + 1)%Z in
  if (bits <=? 53)%Z then n
  else
    let shift := (bits - 53)%Z in
    let q := Z.shiftr n shift in
    let r := (n - Z.shiftl q shift)%Z in
    let half := Z.shiftl 1 (shift - 1) in
    let q' := if (half <? r)%Z || ((r =? half)%Z && Z.odd q) then (q + 1)%Z else q in
    Z.shiftl q' shift.

Definition digits (n : Z) : Z := Z.of_nat (String.length (decimal n)).

(** Number::toString picks the fewest significant digits that still read
    back as the same double: with [k] digits the candidates are [x] cut
    after [k] digits and the next such number; of two that both read back
    the nearer one wins, the even one when they are equally near. *)
Fixpoint shortest (fuel : nat) (k : Z) (x n : Z) : Z :=
  match fuel with
  | O => x
  | S fuel' =>
      let p := (10 ^ (n - k))%Z in
      let s := (x / p)%Z in
      let lo := (s * p)%Z in
      let hi := (lo + p)%Z in
      let ok_lo := (to_double lo =? x)%Z in
      let ok_hi := (to_double hi =? x)%Z in
      if ok_lo && ok_hi then
        if (x - lo <? hi - x)%Z then lo
        else if (hi - x <? x - lo)%Z then hi
        else if Z.even s then lo else hi
      else if ok_lo then lo
      else if ok_hi then hi
      else shortest fuel' (k + 1)%Z x n
  end.

Fixpoint strip_zeros (s : string) : string :=
  match s with
  | EmptyString => EmptyString
  | String c s' =>
      match strip_zeros s' with
      | EmptyString => if Ascii.eqb c "0" then EmptyString else String c EmptyString
      | t => String c t
      end
  end.

(** The text of a positive double of integer value: plain digits up to 21
    of them, beyond that the exponent form, as in 1e+21 and 1.5e+300;
    Infinity beyond the largest double. *)
Definition positive_text (x : Z) : string :=
  if (2 ^ 1024 <=? x)%Z then "Infinity"
  else
    let v := shortest (Z.to_nat (digits x)) 1 x (digits x) in
    let n := digits v in
    if (n <=? 21)%Z then decimal v
    else
      match strip_zeros (decimal v) with
      | String d EmptyString => String d ("e+" ++ decimal (n - 1))
      | String d rest => String d ("." ++ rest ++ "e+" ++ decimal (n - 1))
      | EmptyString => EmptyString
      end.

(** Number::toString on the Number value of [n]. *)
Definition string_of_Z (n : Z) : string :=
  if (n =? 0)%Z then "0"
  else if (n <? 0)%Z
  then match positive_text (to_double (- n)) with
       | "Infinity" => "-Infinity"
       | t => String "-" t
       end
  else positive_text (to_double n).

(** [xs.join(sep)] on strings. *)
Fixpoint join_strings (sep : string) (xs : list string) : string :=
  match xs with
  | [] => ""
  | [x] => x
  | x :: rest => x ++ sep ++ join_strings sep rest
  end.

(** ToString, with [None] for the TypeError "Cannot convert object to
    primitive value".  A parsed JSON object holds no function, so an own
    property named toString hides Object.prototype.toString with a value
    that cannot be called, valueOf (own or inherited) yields no primitive,
    and the conversion throws; any other plain object prints as
    [object Object].  An array prints as its elements joined by commas,
    where null and undefined elements print as the empty string. *)
Fixpoint ToString (v : value) : option string :=
  match v with
  | VUndefined => Some "undefined"
  | VNull => Some "null"
  | VBool true => Some "true"
  | VBool false => Some "false"
  | VNum n => Some (string_of_Z n)
  | VStr s => Some s
  | VArr items =>
      option_map (join_strings ",")
      ((fix elems (l : list value) : option (list string) :=
         match l with
         | [] => Some []
         | x :: rest =>
             match (if nullish x then Some "" else ToString x), elems rest with
             | Some s, Some ss => Some (s :: ss)
             | _, _ => None
             end
         end) items)
  | VObj props =>
      match own "toString" props with
      | Some _ => None
      | None => Some "[object Object]"
      end
  end.

(** [items.join(sep)]: each element through ToString, null and undefined
    as the empty string; [None] when a conversion throws. *)
Definition element_text (x : value) : option string :=
  if nullish x then Some "" else ToString x.

Fixpoint element_texts (l : list value) : option (list string) :=
  match l with
  | [] => Some []
  | x :: rest =>
      match element_text x, element_texts rest with
      | Some s, Some ss => Some (s :: ss)
      | _, _ => None
      end
  end.

Definition Array_join (sep : string) (items : list value) : option string :=
  option_map (join_strings sep) (element_texts items).

(** White space and line terminators among the code units of the model:
    TAB, LF, VT, FF, CR, SP and NBSP.  It is the set that [trim] strips and
    that the pattern class \s matches. *)
Definition is_space (c : ascii) : bool :=
  let n := nat_of_ascii c in
  (((9 <=? n) && (n <=? 13)) || (n =? 32) || (n =? 160))%nat.

Fixpoint trimStart (s : string) : string :=
  match s with
  | EmptyString => EmptyString
  | String c s' => if is_space c then trimStart s' else s
  end.

Fixpoint trimEnd (s : string) : string :=
  match s with
  | EmptyString => EmptyString
  | String c s' =>
      match trimEnd s' with
      | EmptyString => if is_space c then EmptyString else String c EmptyString
      | t => String c t
      end
  end.

Definition trim (s : string) : string := trimEnd (trimStart s).

(** [s.split(sep)] for a separator of one character. *)
Fixpoint split (sep : ascii) (s : string) : list string :=
  match s with
  | EmptyString => [EmptyString]
  | String c s' =>
      if Ascii.eqb c sep then EmptyString :: split sep s'
      else match split sep s' with
           | piece :: pieces => String c piece :: pieces
           | [] => [String c EmptyString]
           end
  end.

End JS.
Export JS.

(** ** Regular expressions

    The three patterns of sanitizeUrl carry the flags g and i and are built
    from literal characters, character classes, concatenation, the greedy
    star, a negative lookahead and a word boundary.  [exec] is the
    backtracking matcher: it tries the alternatives of a star longest
    first and hands each candidate end position to the continuation. *)

Module RegExp.

Inductive regex : Type :=
| Eps
| Lit (c : ascii)
| CharSet (member : ascii -> bool)
| Cat (r1 r2 : regex)
| Star (r : regex)
| NotAhead (r : regex)
| WordBoundary.

Definition Plus (r : regex) : regex := Cat r (Star r).

Fixpoint Lits (s : string) : regex :=
  match s with
  | EmptyString => Eps
  | String c s' => Cat (Lit c) (Lits s')
  end.

(** Canonicalize under the i flag: a lower-case ASCII letter becomes its
    upper-case form; no other code unit of the model maps to an ASCII
    letter. *)
Definition canonicalize (c : ascii) : ascii :=
  let n := nat_of_ascii c in
  if ((97 <=? n) && (n <=? 122))%nat then ascii_of_nat (n - 32) else c.

Definition same_char (a b : ascii) : bool :=
  Ascii.eqb (canonicalize a) (canonicalize b).

(** \w: A-Z, a-z, 0-9 and the underscore. *)
Definition is_word (c : ascii) : bool :=
  let n := nat_of_ascii c in
  (((65 <=? n) && (n <=? 90)) || ((97 <=? n) && (n <=? 122))
   || ((48 <=? n) && (n <=? 57)) || (n =? 95))%nat.

Definition not_lt (c : ascii) : bool := negb (Ascii.eqb c "<").

Definition word_before (prev : option ascii) : bool :=
  match prev with Some c => is_word c | None => false end.

Definition word_after (s : string) : bool :=
  match s with String c _ => is_word c | EmptyString => false end.

(** A continuation receives the character before the current position and
    the rest of the input, and answers with the input left after the whole
    match, if there is one. *)
Definition cont : Type := option ascii -> string -> option string.

(** The iterations of a greedy star: one more iteration that consumes
    input, else the continuation.  An iteration shortens the input, so
    [String.length s] units of fuel allow every iteration there is. *)
Definition star_loop (step : option ascii -> string -> cont -> option string)
    (k : cont) : nat -> option ascii -> string -> option string :=
  fix loop (fuel : nat) (prev : option ascii) (s : string) : option string :=
    match fuel with
    | O => k prev s
    | S fuel' =>
        match step prev s
                (fun prev' s' =>
                   if (String.length s' <? String.length s)%nat
                   then loop fuel' prev' s' else None) with
        | Some rest => Some rest
        | None => k prev s
        end
    end.

Fixpoint exec (r : regex) (prev : option ascii) (s : string) (k : cont)
    {struct r} : option string :=
  match r with
  | Eps => k prev s
  | Lit c =>
      match s with
      | String a s' => if same_char c a then k (Some a) s' else None
      | EmptyString => None
      end
  | CharSet member =>
      match s with
      | String a s' => if member a then k (Some a) s' else None
      | EmptyString => None
      end
  | Cat r1 r2 => exec r1 prev s (fun prev' s' => exec r2 prev' s' k)
  | Star r1 => star_loop (exec r1) k (String.length s) prev s
  | NotAhead r1 =>
      match exec r1 prev s (fun _ s' => Some s') with
      | Some _ => None
      | None => k prev s
      end
  | WordBoundary =>
      if xorb (word_before prev) (word_after s) then k prev s else None
  end.

(** A match of [r] that starts at the current position: the input left
    after it. *)
Definition match_at (r : regex) (prev : option ascii) (s : string) : option string :=
  exec r prev s (fun _ rest => Some rest).

(** [s.replace(/r/g, '')]: scan from the left; at a position where [r]
    matches drop the matched characters and go on after them, elsewhere keep
    the character.  [skip] counts the matched characters still to drop; an
    empty match drops nothing and the scan moves on by one character. *)
Fixpoint remove_from (r : regex) (skip : nat) (prev : option ascii) (s : string) : string :=
  match s with
  | EmptyString => EmptyString
  | String c s' =>
      match skip with
      | S n => remove_from r n (Some c) s'
      | O =>
          match match_at r prev s with
          | Some rest =>
              match String.length s - String.length rest with
              | O => String c (remove_from r 0 (Some c) s')
              | S n => remove_from r n (Some c) s'
              end
          | None => String c (remove_from r 0 (Some c) s')
          end
      end
  end.

Definition remove_all (r : regex) (s : string) : string := remove_from r 0 None s.

End RegExp.
Export RegExp.

(** ** utils/validation.js *)

Module Validation.

(** The first pattern of sanitizeUrl, flags gi; its parts, left to right:
    <script  \b  [^<]*  (?: (?!<\/script>) < [^<]* )*  <\/script> *)
Definition script_re : regex :=
  Cat (Lits "<script")
   (Cat WordBoundary
     (Cat (Star (CharSet not_lt))
       (Cat (Star (Cat (NotAhead (Lits "</script>"))
                    (Cat (Lit "<") (Star (CharSet not_lt)))))
            (Lits "</script>")))).

(** The second pattern, flags gi: javascript: *)
Definition javascript_re : regex := Lits "javascript:".

(** The third pattern, flags gi: on \w+ \s* = *)
Definition handler_re : regex :=
  Cat (Lits "on") (Cat (Plus (CharSet is_word)) (Cat (Star (CharSet is_space)) (Lit "="))).

(** The chain of string operations of sanitizeUrl. *)
Definition sanitize_string (url : string) : string :=
  remove_all handler_re (remove_all javascript_re (remove_all script_re (trim url))).

Definition sanitizeUrl (url : value) : string :=
  match url with
  | VStr s => sanitize_string s
  | _ => ""
  end.

(** What [new URL(text)] yields, as far as the program reads it. *)
Record urlObject : Type := { protocol : string }.

(** [URL text] stands for [new URL(text)], [None] when it throws.  The
    argument of the constructor is converted with ToString first; a
    conversion that throws is caught like a parse error. *)
Definition validateImageUrl (URL : string -> option urlObject) (url : value) : bool :=
  match ToString url with
  | None => false
  | Some text =>
      match URL text with
      | None => false
      | Some urlObject =>
          if negb (includes ["http:"; "https:"] (VStr (protocol urlObject)))
          then false
          else true
      end
  end.

Definition validateFeatures (features : value) : bool :=
  let validFeatures :=
    ["Description"; "Tags"; "Objects"; "Color";
     "ImageType"; "Faces"; "Adult"; "Brands"; "Categories"] in
  match features with
  | VArr items => forallb (fun feature => includes validFeatures feature) items
  | _ => false
  end.

End Validation.
Export Validation.


(** ** controllers/analyzeController.js *)

Module Controller.

(** *** The data of a request *)

(** [req.body] of the URL route: the two properties the handler reads. *)
Record url_body : Type := { url : value; features : value }.

(** [req.file] as the multipart decoder leaves it. *)
Record file : Type := {
  originalname : string;
  mimetype : string;
  size : Z;
  buffer : string }.

(** The upload route: [req.file] is absent when no file part arrived;
    [req.body.features] is a text field, absent or a string. *)
Record upload_request : Type := {
  req_file : option file;
  body_features : option string }.

(** *** The outbound call and its outcomes *)

Inductive payload : Type :=
| JsonBody (data : value)
| RawBody (bytes : string).

(** The arguments of [axios.post(url, data, config)]. *)
Record outbound_call : Type := {
  post_url : string;
  post_data : payload;
  post_headers : list (string * string);
  post_params : list (string * string);
  post_timeout : Z;
  post_maxContentLength : option Z;
  post_maxBodyLength : option Z }.

(** The response of the external service: [status], [data], [headers]. *)
Record upstream_response : Type := {
  response_status : Z;
  response_data : value;
  response_headers : list (string * string) }.

(** What the catch blocks read of a thrown error: [error.response] and
    [error.code]. *)
Record js_error : Type := {
  error_response : option upstream_response;
  error_code : option string }.

(** An error of the runtime carries neither property. *)
Definition TypeError : js_error := {| error_response := None; error_code := None |}.

Inductive axios_result : Type :=
| Fulfilled (response : upstream_response)
| Rejected (error : js_error).

(** What [res.status(s).json(body)] sends. *)
Record http_response : Type := { res_status : Z; res_json : value }.

(** *** The handler monad

    The body of a try block either goes on with a value, has sent its
    response and returned, or has thrown; it records the outbound calls it
    makes. *)

Inductive step (A : Type) : Type :=
| Next (a : A)
| Return (r : http_response)
| Throw (e : js_error).
Arguments Next {A} a.
Arguments Return {A} r.
Arguments Throw {A} e.

Definition handler (A : Type) : Type :=
  list outbound_call -> step A * list outbound_call.

Definition ret {A : Type} (a : A) : handler A := fun calls => (Next a, calls).

Definition bind {A B : Type} (c : handler A) (k : A -> handler B) : handler B :=
  fun calls =>
    match c calls with
    | (Next a, calls') => k a calls'
    | (Return r, calls') => (Return r, calls')
    | (Throw e, calls') => (Throw e, calls')
    end.

Notation "x <- c ;; k" := (bind c (fun x => k))
  (at level 61, c at next level, right associativity).
Notation "c ;; k" := (bind c (fun _ => k))
  (at level 61, right associativity).

(** [return res.status(s).json(body)] *)
Definition respond {A : Type} (s : Z) (body : value) : handler A :=
  fun calls => (Return {| res_status := s; res_json := body |}, calls).

(** [if (cond) return res.status(s).json(body)] *)
Definition reject_if (cond : bool) (s : Z) (body : value) : handler unit :=
  if cond then respond s body else ret tt.

Definition throw {A : Type} (e : js_error) : handler A :=
  fun calls => (Throw e, calls).

(** A conversion to text inside the try block: a TypeError when it fails. *)
Definition text_of (t : option string) : handler string :=
  match t with
  | Some s => ret s
  | None => throw TypeError
  end.

(** The outcome of a request: the outbound calls made, in order, and the
    response sent; [None] when the handler ends without sending one. *)
Record outcome : Type := {
  calls : list outbound_call;
  response : option http_response }.

Definition run (try_block : handler unit)
    (catch_block : js_error -> option http_response) : outcome :=
  match try_block [] with
  | (Return r, made) => {| calls := made; response := Some r |}
  | (Throw e, made) => {| calls := made; response := catch_block e |}
  | (Next _, made) => {| calls := made; response := None |}
  end.

(** *** Constants and small helpers *)

Definition quote : string := String (ascii_of_nat 34) EmptyString.

Definition validFeatures : list string :=
  ["Description"; "Tags"; "Objects"; "Color";
   "ImageType"; "Faces"; "Adult"; "Brands"; "Categories"].

Definition defaultFeatures : list string :=
  ["Description"; "Tags"; "Objects"; "Color"].

Definition validMimeTypes : list string :=
  ["image/jpeg"; "image/png"; "image/gif"; "image/bmp"; "image/webp"].

(** [features.filter(f => !validFeatures.includes(f))] *)
Definition invalid_of (items : list value) : list value :=
  filter (fun f => negb (includes validFeatures f)) items.

(** [url.length > limit]: the number of code units of a string, of elements
    of an array; any other value that gets this far has no numeric length
    and the comparison is false. *)
Definition length_exceeds (v : value) (limit : Z) : bool :=
  match v with
  | VStr s => (limit <? Z.of_nat (String.length s))%Z
  | VArr items => (limit <? Z.of_nat (List.length items))%Z
  | _ => false
  end.

(** [headers[name]] *)
Fixpoint header (name : string) (headers : list (string * string)) : value :=
  match headers with
  | [] => VUndefined
  | (k, v) :: rest => if k =? name then VStr v else header name rest
  end.

Definition code_is (error : js_error) (name : string) : bool :=
  match error_code error with
  | Some c => c =? name
  | None => false
  end.

(** The failure envelope [{success: false, error, details}]. *)
Definition failure (error details : string) : value :=
  VObj [("success", VBool false); ("error", VStr error); ("details", VStr details)].

(** The envelope of an upstream error, with the external [code]. *)
Definition upstream_failure (error : string) (details code : value) : value :=
  VObj [("success", VBool false); ("error", VStr error);
        ("details", details); ("code", code)].

Definition invalid_features_details (invalidText : string) : string :=
  "Invalid features: " ++ invalidText ++ ". Valid features are: "
  ++ join_strings ", " validFeatures.

Section Handlers.

(** The platform and the environment. *)
Variable URL : string -> option urlObject.
Variable JSON_parse : string -> option value.
Variable AZURE_ENDPOINT AZURE_API_KEY : string.
Variable axios_post : outbound_call -> axios_result.
Variable now : string.

(** [await axios.post(...)] *)
Definition post (call : outbound_call) : handler upstream_response :=
  fun made =>
    match axios_post call with
    | Fulfilled response => (Next response, (made ++ [call])%list)
    | Rejected error => (Throw error, (made ++ [call])%list)
    end.

(** *** analyzeFromUrl *)

Definition url_call (sanitizedUrl featureParam : string) : outbound_call :=
  {| post_url := AZURE_ENDPOINT ++ "/vision/v3.2/analyze";
     post_data := JsonBody (VObj [("url", VStr sanitizedUrl)]);
     post_headers := [("Ocp-Apim-Subscription-Key", AZURE_API_KEY);
                      ("Content-Type", "application/json")];
     post_params := [("visualFeatures", featureParam); ("details", "");
                     ("language", "en")];
     post_timeout := 30000;
     post_maxContentLength := None;
     post_maxBodyLength := None |}.

(** The feature list of the URL route: the default unless [features] is
    truthy; a truthy value must be an array without unknown names. *)
Definition url_features (features : value) : handler (list value) :=
  if truthy features then
    match features with
    | VArr items =>
        let invalidFeatures := invalid_of items in
        if (0 <? List.length invalidFeatures)%nat then
          invalidText <- text_of (Array_join ", " invalidFeatures) ;;
          respond 400 (failure "Invalid feature names"
                         (invalid_features_details invalidText))
        else ret items
    | _ =>
        respond 400 (failure "Invalid features format"
                       "Features must be an array of strings")
    end
  else ret (map VStr defaultFeatures).

Definition try_analyzeFromUrl (body : url_body) : handler unit :=
  let url := url body in
  let features := features body in
  reject_if (negb (truthy url)) 400
    (failure "Image URL is required"
       "Please provide a valid image URL in the request body") ;;
  reject_if (negb (validateImageUrl URL url)) 400
    (failure "Invalid URL format"
       "URL must start with http:// or https:// and point to a valid image") ;;
  reject_if (length_exceeds url 2048) 400
    (failure "URL too long" "Image URL must be less than 2048 characters") ;;
  let sanitizedUrl := sanitizeUrl url in
  visualFeatures <- url_features features ;;
  text_of (Array_join ", " visualFeatures) ;;
  featureParam <- text_of (Array_join "," visualFeatures) ;;
  response <- post (url_call sanitizedUrl featureParam) ;;
  respond 200
    (VObj [("success", VBool true);
           ("data", response_data response);
           ("metadata",
             VObj [("requestId", header "apim-request-id" (response_headers response));
                   ("timestamp", VStr now);
                   ("featuresUsed", VArr visualFeatures)])]).

(** The catch block.  Reading [error.response.data.error] throws when the
    body of the response is null or undefined; the handler then ends without
    a response ([None]). *)
Definition catch_analyzeFromUrl (error : js_error) : option http_response :=
  match error_response error with
  | Some response =>
      match get_field (response_data response) "error" with
      | None => None
      | Some azureError =>
          let code := get_field_opt azureError "code" in
          let '(userMessage, details) :=
            if strict_eq_str code "InvalidImageUrl" then
              ("Invalid or inaccessible image URL",
               VStr "The image URL could not be accessed. Please ensure the URL is publicly accessible and points to a valid image file.")
            else if strict_eq_str code "InvalidImageFormat" then
              ("Unsupported image format",
               VStr "Supported formats: JPEG, PNG, GIF, BMP. Please provide an image in one of these formats.")
            else if strict_eq_str code "InvalidImageSize" then
              ("Invalid image dimensions",
               VStr "Image must be at least 50x50 pixels and no larger than 16,000x16,000 pixels.")
            else if strict_eq_str code "InvalidImage" then
              ("Invalid or corrupted image",
               VStr "The image file appears to be corrupted or is not a valid image.")
            else if strict_eq_str code "BadArgument" then
              ("Invalid request parameters",
               or_else (get_field_opt azureError "message")
                 (VStr "One or more parameters in your request are invalid."))
            else if (response_status response =? 429)%Z then
              ("Rate limit exceeded",
               VStr "Too many requests. Free tier allows 20 requests per minute. Please wait before trying again.")
            else
              ("Azure API error",
               or_else (get_field_opt azureError "message")
                 (VStr "An error occurred while processing your request."))
          in
          Some {| res_status := response_status response;
                  res_json := upstream_failure userMessage details code |}
      end
  | None =>
      if code_is error "ECONNABORTED" then
        Some {| res_status := 504;
                res_json := failure "Request timeout"
                  "The image analysis request took too long. Please try again with a smaller image." |}
      else if code_is error "ENOTFOUND" || code_is error "ECONNREFUSED" then
        Some {| res_status := 503;
                res_json := failure "Service unavailable"
                  "Unable to connect to Azure Computer Vision service. Please try again later." |}
      else
        Some {| res_status := 500;
                res_json := failure "Failed to analyze image"
                  "An unexpected error occurred. Please try again later." |}
  end.

Definition analyzeFromUrl (body : url_body) : outcome :=
  run (try_analyzeFromUrl body) catch_analyzeFromUrl.

(** *** analyzeFromUpload *)

Definition upload_call (bytes featureParam : string) : outbound_call :=
  {| post_url := AZURE_ENDPOINT ++ "/vision/v3.2/analyze";
     post_data := RawBody bytes;
     post_headers := [("Ocp-Apim-Subscription-Key", AZURE_API_KEY);
                      ("Content-Type", "application/octet-stream")];
     post_params := [("visualFeatures", featureParam); ("details", "");
                     ("language", "en")];
     post_timeout := 30000;
     post_maxContentLength := Some (4 * 1024 * 1024)%Z;
     post_maxBodyLength := Some (4 * 1024 * 1024)%Z |}.

(** [JSON.parse(text)] inside its own try: an array is kept, any other
    parsed value is rejected, and a text that does not parse is split at
    the commas and each piece trimmed. *)
Definition parse_features (text : string) : handler (list value) :=
  match JSON_parse text with
  | Some parsed =>
      match parsed with
      | VArr items => ret items
      | _ =>
          respond 400 (failure "Invalid features format"
                         "Features must be an array of strings")
      end
  | None => ret (map VStr (map trim (split "," text)))
  end.

(** The feature list of the upload route: the default unless the text
    field is truthy; the parsed names are checked against the valid ones. *)
Definition upload_features (field : option string) : handler (list value) :=
  match field with
  | Some text =>
      if truthy (VStr text) then
        features <- parse_features text ;;
        let invalidFeatures := invalid_of features in
        if (0 <? List.length invalidFeatures)%nat then
          invalidText <- text_of (Array_join ", " invalidFeatures) ;;
          respond 400 (failure "Invalid feature names"
                         (invalid_features_details invalidText))
        else ret features
      else ret (map VStr defaultFeatures)
  | None => ret (map VStr defaultFeatures)
  end.

Definition try_analyzeFromUpload (req : upload_request) : handler unit :=
  file <- match req_file req with
          | None =>
              respond 400
                (failure "No image file provided"
                   ("Please upload an image file using the " ++ quote ++ "image"
                    ++ quote ++ " field name."))
          | Some file => ret file
          end ;;
  reject_if (4 * 1024 * 1024 <? size file)%Z 413
    (failure "File too large"
       "Image file must be less than 4MB. Please compress or resize your image.") ;;
  reject_if (size file <? 1024)%Z 400
    (failure "File too small"
       "Image file must be at least 1KB. The uploaded file appears to be invalid or corrupted.") ;;
  reject_if (negb (includes validMimeTypes (VStr (mimetype file)))) 415
    (failure "Unsupported file type"
       ("File type " ++ quote ++ mimetype file ++ quote
        ++ " is not supported. Please upload a JPEG, PNG, GIF, BMP, or WEBP image.")) ;;
  features <- upload_features (body_features req) ;;
  text_of (Array_join ", " features) ;;
  featureParam <- text_of (Array_join "," features) ;;
  response <- post (upload_call (buffer file) featureParam) ;;
  respond 200
    (VObj [("success", VBool true);
           ("data", response_data response);
           ("metadata",
             VObj [("filename", VStr (originalname file));
                   ("size", VNum (size file));
                   ("mimeType", VStr (mimetype file));
                   ("featuresUsed", VArr features);
                   ("requestId", header "apim-request-id" (response_headers response));
                   ("timestamp", VStr now)])]).

(** The catch block; [None] as in the URL route. *)
Definition catch_analyzeFromUpload (error : js_error) : option http_response :=
  match error_response error with
  | Some response =>
      match get_field (response_data response) "error" with
      | None => None
      | Some azureError =>
          let code := get_field_opt azureError "code" in
          let '(userMessage, details) :=
            if strict_eq_str code "InvalidImageFormat" then
              ("Unsupported image format",
               VStr "The uploaded file is not a valid image or is corrupted. Supported formats: JPEG, PNG, GIF, BMP.")
            else if strict_eq_str code "InvalidImageSize" then
              ("Invalid image dimensions",
               VStr "Image must be at least 50x50 pixels and no larger than 16,000x16,000 pixels.")
            else if strict_eq_str code "InvalidImage" then
              ("Invalid or corrupted image",
               VStr "The uploaded file appears to be corrupted or is not a valid image.")
            else if (response_status response =? 429)%Z then
              ("Rate limit exceeded",
               VStr "Too many requests. Please wait before trying again.")
            else
              ("Azure API error",
               or_else (get_field_opt azureError "message")
                 (VStr "An error occurred while processing your image."))
          in
          Some {| res_status := response_status response;
                  res_json := upstream_failure userMessage details code |}
      end
  | None =>
      if code_is error "ECONNABORTED" then
        Some {| res_status := 504;
                res_json := failure "Request timeout"
                  "Image processing took too long. Please try with a smaller image." |}
      else
        Some {| res_status := 500;
                res_json := failure "Failed to analyze uploaded image"
                  "An unexpected error occurred during image analysis." |}
  end.

Definition analyzeFromUpload (req : upload_request) : outcome :=
  run (try_analyzeFromUpload req) catch_analyzeFromUpload.

End Handlers.

End Controller.
Export Controller.

(** ** Answers of the platform on the inputs of the examples

    The URL parser and JSON.parse belong to the runtime.  The examples
    below need their answers on a handful of texts only; these tables
    record them, and answer [None] on every other text. *)

Module Node.

Definition URL (text : string) : option urlObject :=
  if text =? "https://example.com/cat.jpg" then Some {| protocol := "https:" |}
  else if text =? "http://example.com/cat.jpg" then Some {| protocol := "http:" |}
  else if text =? "javascript:alert(1)" then Some {| protocol := "javascript:" |}
  else if text =? "file:///etc/passwd" then Some {| protocol := "file:" |}
  else if text =? "data:text/plain,cat" then Some {| protocol := "data:" |}
  else None.

(** The JSON text of an array of two names. *)
Definition tags_objects_json : string :=
  "[" ++ quote ++ "Tags" ++ quote ++ "," ++ quote ++ "Objects" ++ quote ++ "]".

Definition JSON_parse (text : string) : option value :=
  if text =? tags_objects_json then Some (VArr [VStr "Tags"; VStr "Objects"])
  else if text =? "[]" then Some (VArr [])
  else if text =? "0" then Some (VNum 0)
  else if text =? "{}" then Some (VObj [])
  else None.

Definition AZURE_ENDPOINT : string := "https://vision.example.net".
Definition AZURE_API_KEY : string := "key".
Definition now : string := "2024-01-01T00:00:00.000Z".

(** A service that answers every call with a description. *)
Definition service_ok (_ : outbound_call) : axios_result :=
  Fulfilled {| response_status := 200;
               response_data := VObj [("description", VObj [])];
               response_headers := [("apim-request-id", "r-1")] |}.

(** A service and network that fail every call with the given error. *)
Definition service_fails (error : js_error) (_ : outbound_call) : axios_result :=
  Rejected error.

(** The error of a call that the service answered with status 429 and
    the given external code. *)
Definition rate_limited (code : string) : js_error :=
  {| error_response :=
       Some {| response_status := 429;
               response_data :=
                 VObj [("error", VObj [("code", VStr code);
                                       ("message", VStr "Too many calls")])];
               response_headers := [] |};
     error_code := Some "ERR_BAD_REQUEST" |}.

(** The error of a call that got no response, with the given reason. *)
Definition no_response (code : string) : js_error :=
  {| error_response := None; error_code := Some code |}.

Definition cat_url : url_body :=
  {| url := VStr "https://example.com/cat.jpg"; features := VUndefined |}.

Definition cat_jpg : file :=
  {| originalname := "cat.jpg"; mimetype := "image/jpeg"; size := 1024;
     buffer := "cat" |}.

End Node.

(** ** Vocabulary of the properties *)

Module Props.

(** [r] matches at no position of [s]. *)
Fixpoint no_match (r : regex) (prev : option ascii) (s : string) : bool :=
  match s with
  | EmptyString => true
  | String c s' =>
      match match_at r prev s with
      | Some _ => false
      | None => no_match r (Some c) s'
      end
  end.

(** A string that sanitizeUrl has nothing to do on: no white space at
    either end and no match of any of the three patterns. *)
Definition clean (s : string) : bool :=
  (trim s =? s) && no_match script_re None s
  && no_match javascript_re None s && no_match handler_re None s.

(** The status and a property of the envelope of the response sent. *)
Definition status_of (sent : option http_response) : option Z :=
  option_map res_status sent.

Definition field_of (sent : option http_response) (k : string) : value :=
  match sent with
  | Some r => get_field_opt (res_json r) k
  | None => VUndefined
  end.

(** A locally resolved rejection: a status of the 4xx family and an
    envelope with success false. *)
Definition rejected_4xx (sent : option http_response) : Prop :=
  exists r, sent = Some r /\ (400 <= res_status r < 500)%Z
            /\ get_field_opt (res_json r) "success" = VBool false.

(** The external codes that the switch of each catch block names. *)
Definition url_codes : list string :=
  ["InvalidImageUrl"; "InvalidImageFormat"; "InvalidImageSize";
   "InvalidImage"; "BadArgument"].

Definition upload_codes : list string :=
  ["InvalidImageFormat"; "InvalidImageSize"; "InvalidImage"].

Definition unknown_tag (f : value) : bool := negb (includes validFeatures f).

(** The names of a list that are outside the fixed set, in order. *)
Definition is_valid (name : string) : bool := existsb (String.eqb name) validFeatures.

Definition offending (names : list string) : list string :=
  filter (fun name => negb (is_valid name)) names.

(** The offending elements of a feature list can be put into text. *)
Definition printable (items : list value) : bool :=
  match element_texts (invalid_of items) with
  | Some _ => true
  | None => false
  end.

(** The check of the feature names, as both handlers write it out: send
    the rejection that lists the unknown names, or go on with the list. *)
Definition check_names (items : list value) : handler (list value) :=
  let invalidFeatures := invalid_of items in
  if (0 <? List.length invalidFeatures)%nat then
    invalidText <- text_of (Array_join ", " invalidFeatures) ;;
    respond 400 (failure "Invalid feature names"
                   (invalid_features_details invalidText))
  else ret items.

(** The rejection of a feature list whose unknown names print as [texts]. *)
Definition names_rejection (texts : list string) : http_response :=
  {| res_status := 400;
     res_json :=
       failure "Invalid feature names"
         ("Invalid features: " ++ join_strings ", " texts
          ++ ". Valid features are: Description, Tags, Objects, Color, ImageType, Faces, Adult, Brands, Categories") |}.

Definition too_large : http_response :=
  {| res_status := 413;
     res_json :=
       failure "File too large"
         "Image file must be less than 4MB. Please compress or resize your image." |}.

Definition too_small : http_response :=
  {| res_status := 400;
     res_json :=
       failure "File too small"
         "Image file must be at least 1KB. The uploaded file appears to be invalid or corrupted." |}.

(** The validation failures of the URL route: url missing, malformed or
    of another scheme, over-length, features truthy and not an array,
    features an array with an unknown tag. *)
Definition url_failure (URL : string -> option urlObject) (body : url_body) : bool :=
  negb (truthy (url body))
  || negb (validateImageUrl URL (url body))
  || length_exceeds (url body) 2048
  || (truthy (features body) && negb (Array_isArray (features body)))
  || match features body with
     | VArr items => existsb unknown_tag items
     | _ => false
     end.

Definition url_printable (body : url_body) : bool :=
  match features body with
  | VArr items => printable items
  | _ => true
  end.

(** The feature list that the upload route reads from a non-empty text
    field, [None] when the parsed JSON value is not an array. *)
Definition parsed_features (JSON_parse : string -> option value) (text : string)
    : option (list value) :=
  match JSON_parse text with
  | Some (VArr items) => Some items
  | Some _ => None
  | None => Some (map VStr (map trim (split "," text)))
  end.

(** The validation failures of the upload route: file missing, size out
    of bounds, unsupported type, a non-empty features field that parses to
    no array or to a list with an unknown tag. *)
Definition upload_failure (JSON_parse : string -> option value)
    (req : upload_request) : bool :=
  match req_file req with
  | None => true
  | Some file =>
      (4 * 1024 * 1024 <? size file)%Z
      || (size file <? 1024)%Z
      || negb (includes validMimeTypes (VStr (mimetype file)))
      || match body_features req with
         | Some text =>
             truthy (VStr text)
             && match parsed_features JSON_parse text with
                | Some items => existsb unknown_tag items
                | None => true
                end
         | None => false
         end
  end.

Definition upload_printable (JSON_parse : string -> option value)
    (req : upload_request) : bool :=
  match body_features req with
  | Some text =>
      match parsed_features JSON_parse text with
      | Some items => printable items
      | None => true
      end
  | None => true
  end.

End Props.
Export Props.

(** ** routes/analyze.js *)

Module Routes.

(** What the file filter hands to its callback: an error, or acceptance. *)
Inductive filter_decision : Type :=
| Refuse (message : string)
| Accept.

(** [fileFilter] of the multipart decoder, as a function of the declared
    type of the file part. *)
Definition fileFilter (mimetype : string) : filter_decision :=
  if negb (prefix "image/" mimetype)
  then Refuse "Only image files are allowed!"
  else Accept.

(** [limits.fileSize] *)
Definition fileSize : Z := 10 * 1024 * 1024.

(** The entries that GET /features answers with. *)
Definition feature_entries : list (string * string) :=
  [("Description", "Generate human-readable descriptions");
   ("Tags", "Extract relevant tags and keywords");
   ("Objects", "Detect objects with bounding boxes");
   ("Color", "Analyze dominant and accent colors");
   ("ImageType", "Detect clipart and line drawings");
   ("Faces", "Detect faces and estimate age/gender");
   ("Adult", "Detect adult or racy content");
   ("Brands", "Detect well-known brands and logos");
   ("Categories", "Categorize images into taxonomy")].

Definition features_route : http_response :=
  {| res_status := 200;
     res_json :=
       VObj [("success", VBool true);
             ("features",
               VArr (map (fun entry =>
                            VObj [("name", VStr (fst entry));
                                  ("description", VStr (snd entry))])
                         feature_entries))] |}.

(** The names that the answer of the route lists. *)
Definition advertised : list string := map fst feature_entries.

End Routes.

(** ** The earlier controller

    The repository holds a second, earlier file of the two handlers.  It
    checks the presence and the format of the url and the presence of the
    file only, forwards the feature list as it comes, gives the call no
    timeout, and answers an upstream error with the message of the
    service. *)

Module Legacy.

(** [v.join(sep)]: only an array has the method; on any other value the
    call throws ([None]). *)
Definition join_method (v : value) (sep : string) : option string :=
  match v with
  | VArr items => Array_join sep items
  | _ => None
  end.

(** The envelope [{success: false, error}]. *)
Definition failure (error : value) : value :=
  VObj [("success", VBool false); ("error", error)].

Section Handlers.

Variable URL : string -> option urlObject.
Variable JSON_parse : string -> option value.
Variable AZURE_ENDPOINT AZURE_API_KEY : string.
Variable axios_post : outbound_call -> axios_result.
Variable now : string.

(** The call of the URL route; no timeout is configured, which leaves the
    default of the client, 0. *)
Definition url_call (sanitizedUrl featureParam : string) : outbound_call :=
  {| post_url := AZURE_ENDPOINT ++ "/vision/v3.2/analyze";
     post_data := JsonBody (VObj [("url", VStr sanitizedUrl)]);
     post_headers := [("Ocp-Apim-Subscription-Key", AZURE_API_KEY);
                      ("Content-Type", "application/json")];
     post_params := [("visualFeatures", featureParam); ("details", "");
                     ("language", "en")];
     post_timeout := 0;
     post_maxContentLength := None;
     post_maxBodyLength := None |}.

Definition try_analyzeFromUrl (body : url_body) : handler unit :=
  let url := url body in
  let features := features body in
  reject_if (negb (truthy url)) 400 (failure (VStr "Image URL is required")) ;;
  reject_if (negb (validateImageUrl URL url)) 400 (failure (VStr "Invalid URL format")) ;;
  let sanitizedUrl := sanitizeUrl url in
  let visualFeatures := or_else features (VArr (map VStr defaultFeatures)) in
  text_of (join_method visualFeatures ", ") ;;
  featureParam <- text_of (join_method visualFeatures ",") ;;
  response <- post axios_post (url_call sanitizedUrl featureParam) ;;
  respond 200
    (VObj [("success", VBool true);
           ("data", response_data response);
           ("metadata",
             VObj [("requestId", header "apim-request-id" (response_headers response));
                   ("timestamp", VStr now)])]).

(** The catch block of either handler, up to the text of the last
    answer. *)
Definition catch_with (fallback : string) (error : js_error) : option http_response :=
  match error_response error with
  | Some response =>
      match get_field (response_data response) "error" with
      | None => None
      | Some azureError =>
          Some {| res_status := response_status response;
                  res_json :=
                    VObj [("success", VBool false);
                          ("error", or_else (get_field_opt azureError "message")
                                      (VStr "Azure API error"));
                          ("code", get_field_opt azureError "code")] |}
      end
  | None => Some {| res_status := 500; res_json := failure (VStr fallback) |}
  end.

Definition catch_analyzeFromUrl : js_error -> option http_response :=
  catch_with "Failed to analyze image".

Definition analyzeFromUrl (body : url_body) : outcome :=
  run (try_analyzeFromUrl body) catch_analyzeFromUrl.

Definition upload_call (bytes featureParam : string) : outbound_call :=
  {| post_url := AZURE_ENDPOINT ++ "/vision/v3.2/analyze";
     post_data := RawBody bytes;
     post_headers := [("Ocp-Apim-Subscription-Key", AZURE_API_KEY);
                      ("Content-Type", "application/octet-stream")];
     post_params := [("visualFeatures", featureParam); ("details", "");
                     ("language", "en")];
     post_timeout := 0;
     post_maxContentLength := None;
     post_maxBodyLength := None |}.

(** The feature list of the upload route: whatever JSON.parse yields, or
    the trimmed pieces between the commas. *)
Definition upload_features (field : option string) : value :=
  match field with
  | Some text =>
      if truthy (VStr text) then
        match JSON_parse text with
        | Some parsed => parsed
        | None => VArr (map VStr (map trim (split "," text)))
        end
      else VArr (map VStr defaultFeatures)
  | None => VArr (map VStr defaultFeatures)
  end.

Definition try_analyzeFromUpload (req : upload_request) : handler unit :=
  file <- match req_file req with
          | None =>
              respond 400
                (failure (VStr ("No image file provided. Use " ++ quote ++ "image"
                                ++ quote ++ " as the field name.")))
          | Some file => ret file
          end ;;
  let features := upload_features (body_features req) in
  text_of (join_method features ", ") ;;
  featureParam <- text_of (join_method features ",") ;;
  response <- post axios_post (upload_call (buffer file) featureParam) ;;
  respond 200
    (VObj [("success", VBool true);
           ("data", response_data response);
           ("metadata",
             VObj [("filename", VStr (originalname file));
                   ("size", VNum (size file));
                   ("mimeType", VStr (mimetype file));
                   ("requestId", header "apim-request-id" (response_headers response));
                   ("timestamp", VStr now)])]).

Definition catch_analyzeFromUpload : js_error -> option http_response :=
  catch_with "Failed to analyze uploaded image".

Definition analyzeFromUpload (req : upload_request) : outcome :=
  run (try_analyzeFromUpload req) catch_analyzeFromUpload.

End Handlers.

End Legacy.

(** ** Further vocabulary *)

Module More.

(** [a] is [b] with some characters deleted. *)
Inductive Subseq : string -> string -> Prop :=
| Subseq_nil : Subseq EmptyString EmptyString
| Subseq_keep c a b : Subseq a b -> Subseq (String c a) (String c b)
| Subseq_drop c a b : Subseq a b -> Subseq a (String c b).

(** A name that the comma form of the features field gives back as it is:
    no comma in it and no white space at its ends. *)
Fixpoint no_comma (s : string) : bool :=
  match s with
  | EmptyString => true
  | String c s' => negb (Ascii.eqb c ",") && no_comma s'
  end.

Definition plain (name : string) : bool := no_comma name && (trim name =? name).




(** The feature parameter of a call. *)
Definition feature_param (call : outbound_call) : option string :=
  match post_params call with
  | (_, v) :: _ => Some v
  | [] => None
  end.

End More.
Export More.

(** Unfolds a handler down to the operations of the handler monad. *)
Ltac step_handler :=
  unfold analyzeFromUrl, analyzeFromUpload, run, try_analyzeFromUrl,
    try_analyzeFromUpload, url_features, upload_features, parse_features,
    post, bind, reject_if, respond, ret, throw, text_of in *.

(** ** The matcher: continuations and fuel *)

Lemma star_loop_ext step k1 k2 :
  (forall p t (c1 c2 : cont), (forall p' t', c1 p' t' = c2 p' t') -> step p t c1 = step p t c2) ->
  (forall p t, k1 p t = k2 p t) ->
  forall fuel prev s, star_loop step k1 fuel prev s = star_loop step k2 fuel prev s.
Proof.
  intros Hstep Hk fuel.
  induction fuel as [|fuel IH]; intros prev s; simpl.
  - apply Hk.
  - erewrite Hstep.
    + rewrite Hk. reflexivity.
    + intros p' t'. simpl. destruct (String.length t' <? String.length s)%nat; auto.
Qed.

Lemma exec_ext r :
  forall prev s (k1 k2 : cont),
    (forall p t, k1 p t = k2 p t) -> exec r prev s k1 = exec r prev s k2.
Proof.
  induction r; intros prev s k1 k2 Hk; simpl.
  - apply Hk.
  - destruct s; auto. destruct (same_char c a); auto.
  - destruct s; auto. destruct (member a); auto.
  - apply IHr1. intros p t. apply IHr2. exact Hk.
  - apply star_loop_ext; auto.
  - rewrite Hk. reflexivity.
  - rewrite Hk. reflexivity.
Qed.

(** A matcher answers only through its continuation. *)
Lemma exec_fail r :
  forall prev s, exec r prev s (fun _ _ => None) = None.
Proof.
  induction r; intros prev s; simpl; auto.
  - destruct s; auto. destruct (same_char c a); auto.
  - destruct s; auto. destruct (member a); auto.
  - rewrite (exec_ext r1 prev s _ (fun _ _ => None)); auto.
  - generalize (String.length s) at 1. intros fuel. revert prev s.
    induction fuel as [|fuel IH]; intros prev s; simpl; auto.
    rewrite (exec_ext r prev s _ (fun _ _ => None)).
    + rewrite IHr. reflexivity.
    + intros p t. destruct (String.length t <? String.length s)%nat; auto.
  - destruct (exec r prev s (fun _ s' => Some s')); auto.
  - destruct (xorb (word_before prev) (word_after s)); auto.
Qed.

(** Fuel beyond the length of the input changes nothing: the star of
    [exec] never stops for lack of fuel. *)
Lemma star_fuel_enough r k :
  forall n m prev s,
    String.length s <= n -> String.length s <= m ->
    star_loop (exec r) k n prev s = star_loop (exec r) k m prev s.
Proof.
  assert (Hstuck : forall fuel prev,
             star_loop (exec r) k fuel prev EmptyString = k prev EmptyString).
  { intros [|fuel] prev; simpl; auto.
    rewrite exec_fail. reflexivity. }
  induction n as [|n IH]; intros m prev s Hn Hm.
  - destruct s; simpl in Hn; [|lia]. rewrite !Hstuck. reflexivity.
  - destruct m as [|m].
    + destruct s; simpl in Hm; [|lia]. rewrite !Hstuck. reflexivity.
    + simpl. erewrite exec_ext; [reflexivity|].
      intros p t. simpl.
      destruct (String.length t <? String.length s)%nat eqn:Hlt; auto.
      apply Nat.ltb_lt in Hlt. apply IH; lia.
Qed.

Lemma exec_star_fuel r prev s k n :
  String.length s <= n ->
  exec (Star r) prev s k = star_loop (exec r) k n prev s.
Proof.
  intros Hn. simpl. apply star_fuel_enough; lia.
Qed.

(** ** sanitizeUrl *)

Lemma remove_from_no_match r :
  forall s prev, no_match r prev s = true -> remove_from r 0 prev s = s.
Proof.
  induction s as [|c s IH]; intros prev H; simpl in *; auto.
  destruct (match_at r prev (String c s)); [discriminate|].
  rewrite IH; auto.
Qed.

Lemma sanitize_string_clean t : clean t = true -> sanitize_string t = t.
Proof.
  unfold clean, sanitize_string, remove_all. intros H.
  apply andb_prop in H. destruct H as [H Hh].
  apply andb_prop in H. destruct H as [H Hj].
  apply andb_prop in H. destruct H as [Ht Hs].
  apply String.eqb_eq in Ht. rewrite Ht.
  rewrite (remove_from_no_match _ _ _ Hs).
  rewrite (remove_from_no_match _ _ _ Hj).
  apply remove_from_no_match. exact Hh.
Qed.

(** C4, as stated, fails: removing the inner javascript: of
    javajavascript:script: joins the two outer pieces into a new
    javascript:, which a second pass removes. *)
Lemma C4_sanitizeUrl_not_idempotent :
  sanitizeUrl (VStr "javajavascript:script:") = "javascript:"
  /\ sanitizeUrl (VStr (sanitizeUrl (VStr "javajavascript:script:"))) = ""
  /\ sanitizeUrl (VStr (sanitizeUrl (VStr "javajavascript:script:")))
     <> sanitizeUrl (VStr "javajavascript:script:").
Proof.
  split; [vm_compute; reflexivity|].
  split; [vm_compute; reflexivity|].
  vm_compute. discriminate.
Qed.

(** C4 at the failing inputs: a fragment that sits inside another one of
    its kind survives the single pass.  What sanitizeUrl returns then still
    holds javascript:, a script element or an on<word>= handler, and it is
    no fixed point: sanitizing it again changes it. *)
Theorem C4_nested_fragments_survive :
  sanitizeUrl (VStr "javajavascript:script:alert(1)") = "javascript:alert(1)"
  /\ sanitizeUrl (VStr "<scr<script></script>ipt>alert(1)</script>")
     = "<script>alert(1)</script>"
  /\ sanitizeUrl (VStr "oonclick=nclick=alert(1)") = "onclick=alert(1)"
  /\ sanitizeUrl (VStr "https://example.com/?q=javajavascript:script:alert(1)")
     = "https://example.com/?q=javascript:alert(1)"
  /\ sanitizeUrl (VStr "javascript:alert(1)") = "alert(1)"
  /\ sanitizeUrl (VStr "<script>alert(1)</script>") = ""
  /\ sanitizeUrl (VStr "onclick=alert(1)") = "alert(1)"
  /\ sanitizeUrl (VStr (sanitizeUrl (VStr "javajavascript:script:alert(1)")))
     <> sanitizeUrl (VStr "javajavascript:script:alert(1)").
Proof.
  repeat (split; [vm_compute; reflexivity|]).
  vm_compute. discriminate.
Qed.

(** C10: on every value that is not a string (a number, null, an array,
    undefined, ...) sanitizeUrl returns the empty string; it is a total
    function from values to strings. *)
Theorem C10_sanitizeUrl_non_string (v : value) :
  typeof v <> "string" -> sanitizeUrl v = "".
Proof.
  intros H. destruct v; simpl in *; auto. congruence.
Qed.

Lemma C10_non_string_witness :
  typeof (VNum 42) <> "string" /\ sanitizeUrl (VNum 42) = "".
Proof.
  split.
  - simpl. discriminate.
  - apply (C10_sanitizeUrl_non_string (VNum 42)). simpl. discriminate.
Defined.

Example sanitizeUrl_other_values :
  sanitizeUrl VNull = "" /\ sanitizeUrl VUndefined = ""
  /\ sanitizeUrl (VArr [VStr "https://example.com"]) = ""
  /\ sanitizeUrl (VObj []) = "" /\ sanitizeUrl (VBool true) = "".
Proof. repeat split. Qed.

(** ** The handlers *)

Lemma validateImageUrl_string URL s :
  validateImageUrl URL (VStr s)
  = match URL s with
    | Some u => (protocol u =? "http:") || (protocol u =? "https:")
    | None => false
    end.
Proof.
  unfold validateImageUrl. simpl.
  destruct (URL s) as [u|]; auto.
  rewrite orb_false_r.
  destruct ((protocol u =? "http:") || (protocol u =? "https:")); reflexivity.
Qed.

Lemma rejected_4xx_failure s error details :
  (400 <= s < 500)%Z ->
  rejected_4xx (Some {| res_status := s; res_json := failure error details |}).
Proof.
  intros Hs. eexists. split; [reflexivity|]. split; [exact Hs|]. reflexivity.
Qed.

Lemma Array_join_names sep names :
  Array_join sep (map VStr names) = Some (join_strings sep names).
Proof.
  unfold Array_join.
  assert (H : element_texts (map VStr names) = Some names).
  { induction names as [|n names IH]; simpl; auto. rewrite IH. reflexivity. }
  rewrite H. reflexivity.
Qed.

Lemma invalid_of_nil_iff items :
  invalid_of items = [] <-> existsb unknown_tag items = false.
Proof.
  unfold invalid_of.
  induction items as [|x items IH]; [simpl; tauto|].
  cbn [filter existsb]. fold (unknown_tag x).
  destruct (unknown_tag x); cbn [orb].
  - split; intros H; discriminate H.
  - exact IH.
Qed.

(** A list without unknown tags is a list of valid names, and prints. *)
Lemma valid_items_names items :
  existsb unknown_tag items = false ->
  exists names, items = map VStr names.
Proof.
  induction items as [|x items IH]; cbn [existsb]; intros H.
  - exists []. reflexivity.
  - apply orb_false_elim in H. destruct H as [Hx H].
    destruct (IH H) as [names ->].
    unfold unknown_tag, includes in Hx. apply negb_false_iff in Hx.
    destruct x; simpl in Hx; try discriminate.
    exists (s :: names). reflexivity.
Qed.

Section Properties.

Variable URL : string -> option urlObject.
Variable JSON_parse : string -> option value.
Variable AZURE_ENDPOINT AZURE_API_KEY : string.
Variable axios_post : outbound_call -> axios_result.
Variable now : string.

Local Abbreviation fromUrl := (analyzeFromUrl URL AZURE_ENDPOINT AZURE_API_KEY axios_post now).
Local Abbreviation fromUpload :=
  (analyzeFromUpload JSON_parse AZURE_ENDPOINT AZURE_API_KEY axios_post now).
Local Abbreviation urlCall := (url_call AZURE_ENDPOINT AZURE_API_KEY).
Local Abbreviation uploadCall := (upload_call AZURE_ENDPOINT AZURE_API_KEY).

(** *** URL route: the checks in order *)

Lemma url_missing body :
  truthy (url body) = false ->
  fromUrl body
  = {| calls := [];
       response := Some {| res_status := 400;
                           res_json := failure "Image URL is required"
                             "Please provide a valid image URL in the request body" |} |}.
Proof. intros H. step_handler. rewrite H. reflexivity. Qed.

Lemma url_invalid body :
  truthy (url body) = true ->
  validateImageUrl URL (url body) = false ->
  fromUrl body
  = {| calls := [];
       response := Some {| res_status := 400;
                           res_json := failure "Invalid URL format"
                             "URL must start with http:// or https:// and point to a valid image" |} |}.
Proof. intros H1 H2. step_handler. rewrite H1, H2. reflexivity. Qed.

Lemma url_too_long body :
  truthy (url body) = true ->
  validateImageUrl URL (url body) = true ->
  length_exceeds (url body) 2048 = true ->
  fromUrl body
  = {| calls := [];
       response := Some {| res_status := 400;
                           res_json := failure "URL too long"
                             "Image URL must be less than 2048 characters" |} |}.
Proof. intros H1 H2 H3. step_handler. rewrite H1, H2, H3. reflexivity. Qed.

(** Past the three checks of the url the outcome is that of the feature
    list. *)
Lemma url_checked body :
  truthy (url body) = true ->
  validateImageUrl URL (url body) = true ->
  length_exceeds (url body) 2048 = false ->
  fromUrl body
  = run (visualFeatures <- url_features (features body) ;;
         text_of (Array_join ", " visualFeatures) ;;
         featureParam <- text_of (Array_join "," visualFeatures) ;;
         response <- post axios_post (urlCall (sanitizeUrl (url body)) featureParam) ;;
         respond 200
           (VObj [("success", VBool true);
                  ("data", response_data response);
                  ("metadata",
                    VObj [("requestId", header "apim-request-id" (response_headers response));
                          ("timestamp", VStr now);
                          ("featuresUsed", VArr visualFeatures)])]))
        catch_analyzeFromUrl.
Proof.
  intros H1 H2 H3. unfold analyzeFromUrl, try_analyzeFromUrl, run, bind, reject_if.
  rewrite H1, H2, H3. reflexivity.
Qed.

(** The call and the response for a list of valid names. *)
Lemma url_forward body names :
  truthy (url body) = true ->
  validateImageUrl URL (url body) = true ->
  length_exceeds (url body) 2048 = false ->
  url_features (features body) [] = (Next (map VStr names), []) ->
  let call := urlCall (sanitizeUrl (url body)) (join_strings "," names) in
  fromUrl body
  = {| calls := [call];
       response :=
         match axios_post call with
         | Fulfilled response =>
             Some {| res_status := 200;
                     res_json :=
                       VObj [("success", VBool true);
                             ("data", response_data response);
                             ("metadata",
                               VObj [("requestId",
                                       header "apim-request-id" (response_headers response));
                                     ("timestamp", VStr now);
                                     ("featuresUsed", VArr (map VStr names))])] |}
         | Rejected error => catch_analyzeFromUrl error
         end |}.
Proof.
  intros H1 H2 H3 Hf call. rewrite (url_checked _ H1 H2 H3).
  unfold run, bind. rewrite Hf.
  rewrite !Array_join_names. unfold text_of, ret, post. fold call.
  destruct (axios_post call); reflexivity.
Qed.

Lemma url_features_absent :
  url_features VUndefined [] = (Next (map VStr defaultFeatures), []).
Proof. reflexivity. Qed.

Lemma url_features_empty :
  url_features (VArr []) [] = (Next (map VStr []), []).
Proof. reflexivity. Qed.

(** C3: a url string that does not parse as an absolute URL, or parses
    with a scheme other than http and https (javascript:, file:, data:,
    ...), is rejected with status 400 and success false, and no outbound
    call is made, whatever the features are. *)
Theorem C3_bad_scheme_rejected (s : string) (feats : value) :
  (forall u, URL s = Some u -> protocol u <> "http:" /\ protocol u <> "https:") ->
  let out := fromUrl {| url := VStr s; features := feats |} in
  calls out = []
  /\ status_of (response out) = Some 400%Z
  /\ field_of (response out) "success" = VBool false
  /\ rejected_4xx (response out).
Proof.
  intros H out.
  assert (Hv : validateImageUrl URL (VStr s) = false).
  { rewrite validateImageUrl_string. destruct (URL s) as [u|] eqn:Hu; auto.
    destruct (H u eq_refl) as [Ha Hb].
    apply String.eqb_neq in Ha. apply String.eqb_neq in Hb.
    rewrite Ha, Hb. reflexivity. }
  subst out.
  destruct (truthy (VStr s)) eqn:Ht.
  - rewrite url_invalid by assumption. simpl.
    repeat split; auto. apply rejected_4xx_failure. lia.
  - rewrite url_missing by assumption. simpl.
    repeat split; auto. apply rejected_4xx_failure. lia.
Qed.

(** C5: with the features property absent the call carries the default
    list Description, Tags, Objects, Color, and so does featuresUsed; with
    an explicit empty array the feature parameter is empty and featuresUsed
    is the empty list. *)
Theorem C5_default_features (u : value) :
  truthy u = true ->
  validateImageUrl URL u = true ->
  length_exceeds u 2048 = false ->
  let absent := fromUrl {| url := u; features := VUndefined |} in
  let empty := fromUrl {| url := u; features := VArr [] |} in
  url_features VUndefined []
  = (Next [VStr "Description"; VStr "Tags"; VStr "Objects"; VStr "Color"], [])
  /\ url_features (VArr []) [] = (Next [], [])
  /\ calls absent = [urlCall (sanitizeUrl u) "Description,Tags,Objects,Color"]
  /\ calls empty = [urlCall (sanitizeUrl u) ""]
  /\ (forall r, axios_post (urlCall (sanitizeUrl u) "Description,Tags,Objects,Color")
                = Fulfilled r ->
        get_field_opt (field_of (response absent) "metadata") "featuresUsed"
        = VArr [VStr "Description"; VStr "Tags"; VStr "Objects"; VStr "Color"])
  /\ (forall r, axios_post (urlCall (sanitizeUrl u) "") = Fulfilled r ->
        get_field_opt (field_of (response empty) "metadata") "featuresUsed" = VArr []).
Proof.
  intros H1 H2 H3 absent empty.
  split; [reflexivity|]. split; [reflexivity|].
  subst absent empty.
  rewrite (url_forward {| url := u; features := VUndefined |} defaultFeatures H1 H2 H3
             url_features_absent).
  rewrite (url_forward {| url := u; features := VArr [] |} [] H1 H2 H3
             url_features_empty).
  simpl.
  split; [reflexivity|]. split; [reflexivity|].
  split.
  - intros r Hr. rewrite Hr. reflexivity.
  - intros r Hr. rewrite Hr. reflexivity.
Qed.

(** *** The check of the feature names *)

Lemma check_names_ok items :
  existsb unknown_tag items = false -> check_names items [] = (Next items, []).
Proof.
  intros H. apply invalid_of_nil_iff in H. unfold check_names. rewrite H. reflexivity.
Qed.

Lemma invalid_of_nonempty items :
  existsb unknown_tag items = true -> (0 <? List.length (invalid_of items))%nat = true.
Proof.
  intros H. destruct (invalid_of items) eqn:E; [|reflexivity].
  apply invalid_of_nil_iff in E. congruence.
Qed.

Lemma check_names_rejected items texts :
  existsb unknown_tag items = true ->
  element_texts (invalid_of items) = Some texts ->
  check_names items [] = (Return (names_rejection texts), []).
Proof.
  intros H Ht. unfold check_names. rewrite (invalid_of_nonempty _ H).
  unfold Array_join. rewrite Ht. reflexivity.
Qed.

Lemma check_names_throws items :
  existsb unknown_tag items = true ->
  element_texts (invalid_of items) = None ->
  check_names items [] = (Throw TypeError, []).
Proof.
  intros H Ht. unfold check_names. rewrite (invalid_of_nonempty _ H).
  unfold Array_join. rewrite Ht. reflexivity.
Qed.

Lemma url_features_array items :
  url_features (VArr items) = check_names items.
Proof. reflexivity. Qed.

Lemma upload_features_parsed text :
  text <> "" ->
  upload_features JSON_parse (Some text)
  = match parsed_features JSON_parse text with
    | Some items => check_names items
    | None => respond 400 (failure "Invalid features format"
                             "Features must be an array of strings")
    end.
Proof.
  intros Hne. unfold upload_features, parsed_features, parse_features.
  assert (Ht : truthy (VStr text) = true).
  { simpl. apply negb_true_iff. apply String.eqb_neq. exact Hne. }
  rewrite Ht.
  destruct (JSON_parse text) as [[| | | | |items|]|]; reflexivity.
Qed.

(** *** Upload route: the checks in order *)

Lemma upload_no_file field :
  fromUpload {| req_file := None; body_features := field |}
  = {| calls := [];
       response :=
         Some {| res_status := 400;
                 res_json :=
                   failure "No image file provided"
                     ("Please upload an image file using the " ++ quote ++ "image"
                      ++ quote ++ " field name.") |} |}.
Proof. reflexivity. Qed.

Lemma upload_too_large file field :
  (4 * 1024 * 1024 < size file)%Z ->
  fromUpload {| req_file := Some file; body_features := field |}
  = {| calls := []; response := Some too_large |}.
Proof.
  intros H. apply Z.ltb_lt in H.
  unfold analyzeFromUpload, try_analyzeFromUpload, run, bind, reject_if, ret.
  cbn [req_file]. rewrite H. reflexivity.
Qed.

Lemma upload_too_small file field :
  (size file < 1024)%Z ->
  fromUpload {| req_file := Some file; body_features := field |}
  = {| calls := []; response := Some too_small |}.
Proof.
  intros H.
  assert (H1 : (4 * 1024 * 1024 <? size file)%Z = false) by (apply Z.ltb_ge; lia).
  apply Z.ltb_lt in H.
  unfold analyzeFromUpload, try_analyzeFromUpload, run, bind, reject_if, ret.
  cbn [req_file]. rewrite H1, H. reflexivity.
Qed.

Lemma upload_bad_type file field :
  (1024 <= size file <= 4 * 1024 * 1024)%Z ->
  includes validMimeTypes (VStr (mimetype file)) = false ->
  fromUpload {| req_file := Some file; body_features := field |}
  = {| calls := [];
       response :=
         Some {| res_status := 415;
                 res_json :=
                   failure "Unsupported file type"
                     ("File type " ++ quote ++ mimetype file ++ quote
                      ++ " is not supported. Please upload a JPEG, PNG, GIF, BMP, or WEBP image.") |} |}.
Proof.
  intros Hs Hm.
  assert (H1 : (4 * 1024 * 1024 <? size file)%Z = false) by (apply Z.ltb_ge; lia).
  assert (H2 : (size file <? 1024)%Z = false) by (apply Z.ltb_ge; lia).
  unfold analyzeFromUpload, try_analyzeFromUpload, run, bind, reject_if, ret.
  cbn [req_file]. rewrite H1, H2, Hm. reflexivity.
Qed.

(** Past the checks of the file the outcome is that of the feature list. *)
Lemma upload_checked file field :
  (1024 <= size file <= 4 * 1024 * 1024)%Z ->
  includes validMimeTypes (VStr (mimetype file)) = true ->
  fromUpload {| req_file := Some file; body_features := field |}
  = run (features <- upload_features JSON_parse field ;;
         text_of (Array_join ", " features) ;;
         featureParam <- text_of (Array_join "," features) ;;
         response <- post axios_post (uploadCall (buffer file) featureParam) ;;
         respond 200
           (VObj [("success", VBool true);
                  ("data", response_data response);
                  ("metadata",
                    VObj [("filename", VStr (originalname file));
                          ("size", VNum (size file));
                          ("mimeType", VStr (mimetype file));
                          ("featuresUsed", VArr features);
                          ("requestId", header "apim-request-id" (response_headers response));
                          ("timestamp", VStr now)])]))
        catch_analyzeFromUpload.
Proof.
  intros Hs Hm.
  assert (H1 : (4 * 1024 * 1024 <? size file)%Z = false) by (apply Z.ltb_ge; lia).
  assert (H2 : (size file <? 1024)%Z = false) by (apply Z.ltb_ge; lia).
  unfold analyzeFromUpload, try_analyzeFromUpload, run, bind, reject_if, ret.
  cbn [req_file body_features]. rewrite H1, H2, Hm. reflexivity.
Qed.

Lemma upload_forward file field names :
  (1024 <= size file <= 4 * 1024 * 1024)%Z ->
  includes validMimeTypes (VStr (mimetype file)) = true ->
  upload_features JSON_parse field [] = (Next (map VStr names), []) ->
  let call := uploadCall (buffer file) (join_strings "," names) in
  fromUpload {| req_file := Some file; body_features := field |}
  = {| calls := [call];
       response :=
         match axios_post call with
         | Fulfilled response =>
             Some {| res_status := 200;
                     res_json :=
                       VObj [("success", VBool true);
                             ("data", response_data response);
                             ("metadata",
                               VObj [("filename", VStr (originalname file));
                                     ("size", VNum (size file));
                                     ("mimeType", VStr (mimetype file));
                                     ("featuresUsed", VArr (map VStr names));
                                     ("requestId",
                                       header "apim-request-id" (response_headers response));
                                     ("timestamp", VStr now)])] |}
         | Rejected error => catch_analyzeFromUpload error
         end |}.
Proof.
  intros Hs Hm Hf call. rewrite (upload_checked _ _ Hs Hm).
  unfold run, bind. rewrite Hf.
  rewrite !Array_join_names. unfold text_of, ret, post. fold call.
  destruct (axios_post call); reflexivity.
Qed.

(** The outcome when the feature list does not go on. *)
Lemma run_returns A (c : handler A) k catch r :
  c [] = (Return r, []) ->
  run (x <- c ;; k x) catch = {| calls := []; response := Some r |}.
Proof. intros H. unfold run, bind. rewrite H. reflexivity. Qed.

Lemma run_throws A (c : handler A) k catch e :
  c [] = (Throw e, []) ->
  run (x <- c ;; k x) catch = {| calls := []; response := catch e |}.
Proof. intros H. unfold run, bind. rewrite H. reflexivity. Qed.

(** C6: a payload of 4*1024*1024+1 bytes is rejected as too large and one
    of 1023 bytes as too small, both whatever the declared type and the
    features field are, so both size checks come before the type check;
    payloads of exactly 1024 and exactly 4*1024*1024 bytes of a supported
    type pass and are forwarded. *)
Theorem C6_upload_size_boundaries (name bytes mime good : string) (field : option string) :
  includes validMimeTypes (VStr good) = true ->
  let upload type n feats :=
    fromUpload {| req_file := Some {| originalname := name; mimetype := type;
                                      size := n; buffer := bytes |};
                  body_features := feats |} in
  upload mime (4 * 1024 * 1024 + 1)%Z field = {| calls := []; response := Some too_large |}
  /\ upload mime 1023%Z field = {| calls := []; response := Some too_small |}
  /\ calls (upload good 1024%Z None) = [uploadCall bytes "Description,Tags,Objects,Color"]
  /\ calls (upload good (4 * 1024 * 1024)%Z None)
     = [uploadCall bytes "Description,Tags,Objects,Color"]
  /\ response (upload good 1024%Z None) <> Some too_small
  /\ response (upload good (4 * 1024 * 1024)%Z None) <> Some too_large.
Proof.
  intros Hgood upload. subst upload. cbv beta.
  split; [apply upload_too_large; simpl; lia|].
  split; [apply upload_too_small; simpl; lia|].
  assert (Hdef : upload_features JSON_parse None [] = (Next (map VStr defaultFeatures), []))
    by reflexivity.
  assert (Hcatch : forall e, catch_analyzeFromUpload e <> Some too_small
                             /\ catch_analyzeFromUpload e <> Some too_large).
  { intros e. unfold catch_analyzeFromUpload.
    destruct (error_response e) as [r|].
    - destruct (get_field (response_data r) "error") as [a|]; [|split; discriminate].
      repeat match goal with
             | |- context [if ?b then _ else _] => destruct b
             end; split; discriminate.
    - destruct (code_is e "ECONNABORTED"); split; discriminate. }
  rewrite (upload_forward {| originalname := name; mimetype := good; size := 1024;
                             buffer := bytes |} None defaultFeatures);
    [|simpl; lia|exact Hgood|exact Hdef].
  rewrite (upload_forward {| originalname := name; mimetype := good;
                             size := 4 * 1024 * 1024; buffer := bytes |} None defaultFeatures);
    [|simpl; lia|exact Hgood|exact Hdef].
  cbn [calls response buffer].
  split; [reflexivity|]. split; [reflexivity|].
  split.
  - destruct (axios_post _); [discriminate|apply Hcatch].
  - destruct (axios_post _); [discriminate|apply Hcatch].
Qed.

Lemma is_valid_In name : is_valid name = true <-> In name validFeatures.
Proof.
  unfold is_valid. rewrite existsb_exists. split.
  - intros [x [Hx He]]. apply String.eqb_eq in He. subst. exact Hx.
  - intros H. exists name. split; [exact H|apply String.eqb_refl].
Qed.

Lemma unknown_tag_name name : unknown_tag (VStr name) = negb (is_valid name).
Proof. reflexivity. Qed.

Lemma invalid_of_names names :
  invalid_of (map VStr names) = map VStr (offending names).
Proof.
  unfold invalid_of, offending.
  induction names as [|n names IH]; [reflexivity|].
  cbn [map filter]. fold (unknown_tag (VStr n)). rewrite unknown_tag_name.
  destruct (negb (is_valid n)); cbn [map]; rewrite IH; reflexivity.
Qed.

Lemma element_texts_names names : element_texts (map VStr names) = Some names.
Proof.
  induction names as [|n names IH]; simpl; auto. rewrite IH. reflexivity.
Qed.

Lemma some_unknown_name names :
  (exists t, In t names /\ ~ In t validFeatures) ->
  existsb unknown_tag (map VStr names) = true.
Proof.
  intros [t [Ht Hn]]. apply existsb_exists. exists (VStr t). split.
  - apply in_map. exact Ht.
  - rewrite unknown_tag_name. apply negb_true_iff.
    destruct (is_valid t) eqn:E; [|reflexivity].
    apply is_valid_In in E. contradiction.
Qed.

Lemma offending_In names t :
  In t (offending names) <-> In t names /\ ~ In t validFeatures.
Proof.
  unfold offending. rewrite filter_In, negb_true_iff.
  split; intros [H1 H2]; split; auto.
  - intros H. apply is_valid_In in H. congruence.
  - destruct (is_valid t) eqn:E; [|reflexivity].
    apply is_valid_In in E. contradiction.
Qed.

(** Names always print: the rejection of a list of strings never throws. *)
Lemma check_names_strings names :
  (exists t, In t names /\ ~ In t validFeatures) ->
  check_names (map VStr names) [] = (Return (names_rejection (offending names)), []).
Proof.
  intros H. apply check_names_rejected.
  - apply some_unknown_name. exact H.
  - rewrite invalid_of_names. apply element_texts_names.
Qed.

(** C7: a feature list with a tag outside the fixed set is rejected as a
    whole, in both routes, once the request has passed the checks that come
    before the names: no outbound call is made, and the details list every
    offending tag, in order, and the nine valid names. *)
Theorem C7_unknown_tag_rejected (u : value) (file : file) (text : string)
    (url_names upload_names : list string) :
  truthy u = true ->
  validateImageUrl URL u = true ->
  length_exceeds u 2048 = false ->
  (exists t, In t url_names /\ ~ In t validFeatures) ->
  (1024 <= size file <= 4 * 1024 * 1024)%Z ->
  includes validMimeTypes (VStr (mimetype file)) = true ->
  text <> "" ->
  parsed_features JSON_parse text = Some (map VStr upload_names) ->
  (exists t, In t upload_names /\ ~ In t validFeatures) ->
  fromUrl {| url := u; features := VArr (map VStr url_names) |}
  = {| calls := []; response := Some (names_rejection (offending url_names)) |}
  /\ fromUpload {| req_file := Some file; body_features := Some text |}
     = {| calls := []; response := Some (names_rejection (offending upload_names)) |}
  /\ (forall t, In t (offending url_names) <-> In t url_names /\ ~ In t validFeatures)
  /\ (forall t, In t (offending upload_names)
                <-> In t upload_names /\ ~ In t validFeatures).
Proof.
  intros H1 H2 H3 Hu Hs Hm Hne Hp Hup.
  split.
  - rewrite (url_checked {| url := u; features := VArr (map VStr url_names) |} H1 H2 H3).
    apply run_returns. cbn [features]. rewrite url_features_array.
    apply check_names_strings. exact Hu.
  - split.
    + rewrite (upload_checked file (Some text) Hs Hm).
      apply run_returns. rewrite (upload_features_parsed _ Hne), Hp.
      apply check_names_strings. exact Hup.
    + split; intros t; apply offending_In.
Qed.








(** *** Validation failures stay local *)

Lemma url_failure_local body :
  url_failure URL body = true ->
  calls (fromUrl body) = []
  /\ (url_printable body = true -> rejected_4xx (response (fromUrl body))).
Proof.
  destruct body as [u feats]. unfold url_failure, url_printable. cbn [url features].
  intros H.
  destruct (truthy u) eqn:H1.
  2:{ rewrite url_missing by assumption. split; [reflexivity|].
      intros _. apply rejected_4xx_failure. lia. }
  destruct (validateImageUrl URL u) eqn:H2.
  2:{ rewrite url_invalid by assumption. split; [reflexivity|].
      intros _. apply rejected_4xx_failure. lia. }
  destruct (length_exceeds u 2048) eqn:H3.
  { rewrite url_too_long by assumption. split; [reflexivity|].
    intros _. apply rejected_4xx_failure. lia. }
  cbn [negb orb] in H.
  rewrite (url_checked {| url := u; features := feats |} H1 H2 H3). cbn [features].
  assert (Hformat : forall v, truthy v = true -> Array_isArray v = false ->
            url_features v []
            = (Return {| res_status := 400;
                         res_json := failure "Invalid features format"
                                       "Features must be an array of strings" |}, [])).
  { intros v Ht Ha. unfold url_features. rewrite Ht.
    destruct v; try reflexivity; discriminate. }
  destruct feats as [| |b|n|s|items|props]; cbn [Array_isArray negb andb orb] in H;
    try discriminate H;
    try (rewrite andb_true_r in H; rewrite orb_false_r in H;
         rewrite (run_returns _ _ _ _ _ (Hformat _ H eq_refl));
         split; [reflexivity|intros _; apply rejected_4xx_failure; lia]).
  (* what is left: an array with an unknown tag *)
  rewrite andb_false_r in H. cbn [orb] in H.
  rewrite url_features_array. unfold printable.
  destruct (element_texts (invalid_of items)) as [texts|] eqn:Ht.
  - rewrite (run_returns _ _ _ _ _ (check_names_rejected _ _ H Ht)).
    split; [reflexivity|]. intros _. apply rejected_4xx_failure. lia.
  - rewrite (run_throws _ _ _ _ _ (check_names_throws _ H Ht)).
    split; [reflexivity|]. discriminate.
Qed.

Lemma upload_failure_local req :
  upload_failure JSON_parse req = true ->
  calls (fromUpload req) = []
  /\ (upload_printable JSON_parse req = true -> rejected_4xx (response (fromUpload req))).
Proof.
  destruct req as [[file|] field]; unfold upload_failure, upload_printable;
    cbn [req_file body_features]; intros H.
  2:{ rewrite upload_no_file. split; [reflexivity|].
      intros _. apply rejected_4xx_failure. lia. }
  destruct (4 * 1024 * 1024 <? size file)%Z eqn:H1.
  { apply Z.ltb_lt in H1. rewrite upload_too_large by assumption.
    split; [reflexivity|]. intros _. apply rejected_4xx_failure. lia. }
  destruct (size file <? 1024)%Z eqn:H2.
  { apply Z.ltb_lt in H2. rewrite upload_too_small by assumption.
    split; [reflexivity|]. intros _. apply rejected_4xx_failure. lia. }
  apply Z.ltb_ge in H1. apply Z.ltb_ge in H2.
  destruct (includes validMimeTypes (VStr (mimetype file))) eqn:H3.
  2:{ rewrite upload_bad_type by (auto; lia). split; [reflexivity|].
      intros _. apply rejected_4xx_failure. lia. }
  cbn [negb orb] in H.
  rewrite upload_checked by (auto; lia).
  destruct field as [text|]; [|discriminate H].
  apply andb_prop in H. destruct H as [Ht H].
  assert (Hne : text <> "").
  { simpl in Ht. apply negb_true_iff in Ht. apply String.eqb_neq. exact Ht. }
  rewrite (upload_features_parsed _ Hne).
  destruct (parsed_features JSON_parse text) as [items|].
  - unfold printable.
    destruct (element_texts (invalid_of items)) as [texts|] eqn:Hx.
    + rewrite (run_returns _ _ _ _ _ (check_names_rejected _ _ H Hx)).
      split; [reflexivity|]. intros _. apply rejected_4xx_failure. lia.
    + rewrite (run_throws _ _ _ _ _ (check_names_throws _ H Hx)).
      split; [reflexivity|]. discriminate.
  - erewrite run_returns by reflexivity.
    split; [reflexivity|]. intros _. apply rejected_4xx_failure. lia.
Qed.

(** A request without a validation failure passes every check of the
    URL route and goes on with a list of valid names. *)
Lemma url_passes body :
  url_failure URL body = false ->
  truthy (url body) = true
  /\ validateImageUrl URL (url body) = true
  /\ length_exceeds (url body) 2048 = false
  /\ exists names, url_features (features body) [] = (Next (map VStr names), []).
Proof.
  destruct body as [u feats]. unfold url_failure. cbn [url features]. intros H.
  apply orb_false_elim in H. destruct H as [H He].
  apply orb_false_elim in H. destruct H as [H Hd].
  apply orb_false_elim in H. destruct H as [H Hc].
  apply orb_false_elim in H. destruct H as [Ha Hb].
  apply negb_false_iff in Ha. apply negb_false_iff in Hb.
  repeat split; auto.
  unfold url_features. destruct (truthy feats) eqn:Ht.
  - destruct feats; cbn [Array_isArray negb andb] in Hd; try discriminate.
    destruct (valid_items_names _ He) as [names ->].
    exists names. fold (check_names (map VStr names)).
    apply check_names_ok. exact He.
  - exists defaultFeatures. reflexivity.
Qed.

(** Such a request is forwarded: exactly one outbound call is made. *)
Lemma url_accepted body :
  url_failure URL body = false ->
  exists names,
    calls (fromUrl body) = [urlCall (sanitizeUrl (url body)) (join_strings "," names)].
Proof.
  intros H. destruct (url_passes _ H) as [H1 [H2 [H3 [names Hf]]]].
  exists names. rewrite (url_forward body names); auto.
Qed.

Lemma url_features_falsy v :
  truthy v = false -> url_features v = url_features VUndefined.
Proof. intros H. unfold url_features. rewrite H. reflexivity. Qed.

Lemma falsy_features_as_absent u v :
  truthy u = true ->
  validateImageUrl URL u = true ->
  length_exceeds u 2048 = false ->
  truthy v = false ->
  fromUrl {| url := u; features := v |} = fromUrl {| url := u; features := VUndefined |}
  /\ calls (fromUrl {| url := u; features := v |})
     = [urlCall (sanitizeUrl u) "Description,Tags,Objects,Color"].
Proof.
  intros H1 H2 H3 Hv.
  assert (He : fromUrl {| url := u; features := v |}
               = fromUrl {| url := u; features := VUndefined |}).
  { rewrite (url_checked {| url := u; features := v |} H1 H2 H3).
    rewrite (url_checked {| url := u; features := VUndefined |} H1 H2 H3).
    cbn [url features]. rewrite (url_features_falsy v Hv). reflexivity. }
  split; [exact He|]. rewrite He.
  rewrite (url_forward {| url := u; features := VUndefined |} defaultFeatures H1 H2 H3
             url_features_absent).
  reflexivity.
Qed.

Lemma empty_field_as_absent file :
  (1024 <= size file <= 4 * 1024 * 1024)%Z ->
  includes validMimeTypes (VStr (mimetype file)) = true ->
  fromUpload {| req_file := Some file; body_features := Some "" |}
  = fromUpload {| req_file := Some file; body_features := None |}
  /\ calls (fromUpload {| req_file := Some file; body_features := Some "" |})
     = [uploadCall (buffer file) "Description,Tags,Objects,Color"].
Proof.
  intros Hs Hm.
  assert (He : fromUpload {| req_file := Some file; body_features := Some "" |}
               = fromUpload {| req_file := Some file; body_features := None |}).
  { rewrite (upload_checked file (Some "") Hs Hm).
    rewrite (upload_checked file None Hs Hm). reflexivity. }
  split; [exact He|]. rewrite He.
  rewrite (upload_forward file None defaultFeatures Hs Hm); reflexivity.
Qed.

(** C9 (amended): a request that fails a validation check - URL route:
    url missing, malformed or of another scheme, over-length, features
    truthy and not an array, an unknown tag in the array; upload route:
    file missing, size out of bounds, unsupported type, a non-empty
    features field that parses to no array or holds an unknown tag - makes
    no outbound call, and is answered with a status of the 4xx family and
    success false whenever the unknown tags can be put into text.  A
    features value that is falsy (null, false, 0, the empty string) is no
    such failure: the request is handled as if features were absent, and
    the default list is forwarded. *)
Theorem C9_validation_failure_stays_local (body : url_body) (req : upload_request) :
  url_failure URL body = true ->
  upload_failure JSON_parse req = true ->
  (calls (fromUrl body) = []
   /\ (url_printable body = true -> rejected_4xx (response (fromUrl body))))
  /\ (calls (fromUpload req) = []
      /\ (upload_printable JSON_parse req = true ->
          rejected_4xx (response (fromUpload req))))
  /\ (forall u v,
        truthy u = true ->
        validateImageUrl URL u = true ->
        length_exceeds u 2048 = false ->
        v = VNull \/ v = VBool false \/ v = VNum 0 \/ v = VStr "" ->
        fromUrl {| url := u; features := v |}
        = fromUrl {| url := u; features := VUndefined |}
        /\ calls (fromUrl {| url := u; features := v |})
           = [urlCall (sanitizeUrl u) "Description,Tags,Objects,Color"])
  /\ (forall file,
        (1024 <= size file <= 4 * 1024 * 1024)%Z ->
        includes validMimeTypes (VStr (mimetype file)) = true ->
        fromUpload {| req_file := Some file; body_features := Some "" |}
        = fromUpload {| req_file := Some file; body_features := None |}
        /\ calls (fromUpload {| req_file := Some file; body_features := Some "" |})
           = [uploadCall (buffer file) "Description,Tags,Objects,Color"]).
Proof.
  intros Hu Hr. split; [|split; [|split]].
  - apply url_failure_local. exact Hu.
  - apply upload_failure_local. exact Hr.
  - intros u v H1 H2 H3 Hv. apply falsy_features_as_absent; auto.
    destruct Hv as [-> | [-> | [-> | ->]]]; reflexivity.
  - intros file Hs Hm. apply empty_field_as_absent; assumption.
Qed.

Lemma upload_passes file field :
  upload_failure JSON_parse {| req_file := Some file; body_features := field |} = false ->
  (1024 <= size file <= 4 * 1024 * 1024)%Z
  /\ includes validMimeTypes (VStr (mimetype file)) = true
  /\ exists names, upload_features JSON_parse field [] = (Next (map VStr names), []).
Proof.
  unfold upload_failure; cbn [req_file body_features]; intros H.
  apply orb_false_elim in H. destruct H as [H Hf].
  apply orb_false_elim in H. destruct H as [H Hm].
  apply orb_false_elim in H. destruct H as [H1 H2].
  apply negb_false_iff in Hm. apply Z.ltb_ge in H1. apply Z.ltb_ge in H2.
  split; [lia|]. split; [exact Hm|].
  destruct field as [text|]; [|exists defaultFeatures; reflexivity].
  destruct (truthy (VStr text)) eqn:Ht.
  - assert (Hne : text <> "").
    { simpl in Ht. apply negb_true_iff in Ht. apply String.eqb_neq. exact Ht. }
    rewrite (upload_features_parsed _ Hne).
    cbn [andb] in Hf.
    destruct (parsed_features JSON_parse text) as [items|]; [|discriminate Hf].
    destruct (valid_items_names _ Hf) as [names ->].
    exists names. apply check_names_ok. exact Hf.
  - exists defaultFeatures. unfold upload_features. rewrite Ht. reflexivity.
Qed.

Lemma upload_accepted req :
  upload_failure JSON_parse req = false ->
  exists file names,
    req_file req = Some file
    /\ calls (fromUpload req) = [uploadCall (buffer file) (join_strings "," names)].
Proof.
  destruct req as [[file|] field]; intros H; [|discriminate H].
  destruct (upload_passes _ _ H) as [Hs [Hm [names Hn]]].
  exists file, names. split; [reflexivity|].
  rewrite (upload_forward file field names); auto.
Qed.

(** *** Translation of upstream and transport errors *)

Lemma not_included_cons v name names :
  includes (name :: names) v = false ->
  strict_eq_str v name = false /\ includes names v = false.
Proof. unfold includes. cbn [existsb]. apply orb_false_elim. Qed.

(** C1 (amended): an upstream response with status 429 is surfaced with
    status 429 in both routes; its message is Rate limit exceeded when the
    external code is none of those that the switch of the route names
    (URL route: InvalidImageUrl, InvalidImageFormat, InvalidImageSize,
    InvalidImage, BadArgument; upload route: InvalidImageFormat,
    InvalidImageSize, InvalidImage), and a code that the switch names keeps
    its own message. *)
Theorem C1_rate_limit_message (error : js_error) (upstream : upstream_response)
    (azureError : value) :
  error_response error = Some upstream ->
  response_status upstream = 429%Z ->
  get_field (response_data upstream) "error" = Some azureError ->
  let code := get_field_opt azureError "code" in
  let by_url := field_of (catch_analyzeFromUrl error) "error" in
  let by_upload := field_of (catch_analyzeFromUpload error) "error" in
  status_of (catch_analyzeFromUrl error) = Some 429%Z
  /\ status_of (catch_analyzeFromUpload error) = Some 429%Z
  /\ (includes url_codes code = false -> by_url = VStr "Rate limit exceeded")
  /\ (includes upload_codes code = false -> by_upload = VStr "Rate limit exceeded")
  /\ (code = VStr "InvalidImageUrl" ->
      by_url = VStr "Invalid or inaccessible image URL")
  /\ (code = VStr "InvalidImageFormat" ->
      by_url = VStr "Unsupported image format"
      /\ by_upload = VStr "Unsupported image format")
  /\ (code = VStr "InvalidImageSize" ->
      by_url = VStr "Invalid image dimensions"
      /\ by_upload = VStr "Invalid image dimensions")
  /\ (code = VStr "InvalidImage" ->
      by_url = VStr "Invalid or corrupted image"
      /\ by_upload = VStr "Invalid or corrupted image")
  /\ (code = VStr "BadArgument" -> by_url = VStr "Invalid request parameters").
Proof.
  intros He Hs Ha code by_url by_upload. subst by_url by_upload.
  unfold catch_analyzeFromUrl, catch_analyzeFromUpload.
  rewrite He, Ha, Hs. fold code. cbn [Z.eqb Pos.eqb].
  split.
  { repeat match goal with
           | |- context [if strict_eq_str code ?n then _ else _] =>
               destruct (strict_eq_str code n)
           end; reflexivity. }
  split.
  { repeat match goal with
           | |- context [if strict_eq_str code ?n then _ else _] =>
               destruct (strict_eq_str code n)
           end; reflexivity. }
  split.
  { intros H. unfold url_codes in H.
    repeat (apply not_included_cons in H; destruct H as [-> H]).
    reflexivity. }
  split.
  { intros H. unfold upload_codes in H.
    repeat (apply not_included_cons in H; destruct H as [-> H]).
    reflexivity. }
  split; [intros Hc; rewrite Hc; reflexivity|].
  split; [intros Hc; rewrite Hc; split; reflexivity|].
  split; [intros Hc; rewrite Hc; split; reflexivity|].
  split; [intros Hc; rewrite Hc; split; reflexivity|].
  intros Hc. rewrite Hc. reflexivity.
Qed.

(** A call that got no response: the URL route tells a timeout (504) and
    an unreachable service (503) apart from other failures; the upload
    route has the timeout branch only. *)
Lemma transport_failure_url error :
  error_response error = None ->
  (code_is error "ECONNABORTED" = true ->
   status_of (catch_analyzeFromUrl error) = Some 504%Z
   /\ field_of (catch_analyzeFromUrl error) "error" = VStr "Request timeout")
  /\ (code_is error "ECONNABORTED" = false ->
      code_is error "ENOTFOUND" || code_is error "ECONNREFUSED" = true ->
      status_of (catch_analyzeFromUrl error) = Some 503%Z
      /\ field_of (catch_analyzeFromUrl error) "error" = VStr "Service unavailable").
Proof.
  intros He. unfold catch_analyzeFromUrl. rewrite He. split.
  - intros ->. split; reflexivity.
  - intros -> ->. split; reflexivity.
Qed.

Lemma transport_failure_upload error :
  error_response error = None ->
  (code_is error "ECONNABORTED" = true ->
   status_of (catch_analyzeFromUpload error) = Some 504%Z
   /\ field_of (catch_analyzeFromUpload error) "error" = VStr "Request timeout")
  /\ (code_is error "ECONNABORTED" = false ->
      status_of (catch_analyzeFromUpload error) = Some 500%Z
      /\ field_of (catch_analyzeFromUpload error) "error"
         = VStr "Failed to analyze uploaded image").
Proof.
  intros He. unfold catch_analyzeFromUpload. rewrite He. split.
  - intros ->. split; reflexivity.
  - intros ->. split; reflexivity.
Qed.

(** The response to a forwarded request whose call fails is what the
    catch block makes of the error. *)
Lemma url_call_rejected body error :
  url_failure URL body = false ->
  (forall call, axios_post call = Rejected error) ->
  response (fromUrl body) = catch_analyzeFromUrl error.
Proof.
  intros Hv Hr. destruct (url_passes _ Hv) as [H1 [H2 [H3 [names Hf]]]].
  rewrite (url_forward body names); auto.
  cbn [response]. rewrite Hr. reflexivity.
Qed.

Lemma upload_call_rejected req error :
  upload_failure JSON_parse req = false ->
  (forall call, axios_post call = Rejected error) ->
  response (fromUpload req) = catch_analyzeFromUpload error.
Proof.
  intros Hv Hr. destruct req as [[file|] field]; [|discriminate Hv].
  destruct (upload_passes _ _ Hv) as [Hs [Hm [names Hn]]].
  rewrite (upload_forward file field names); auto.
  cbn [response]. rewrite Hr. reflexivity.
Qed.

End Properties.

(** ** Concrete runs *)

(** C1, as stated, fails: with status 429 and the external code
    BadArgument the URL route answers Invalid request parameters, and with
    InvalidImage the upload route answers Invalid or corrupted image. *)
Lemma C1_recognized_code_keeps_its_message :
  let by_url :=
    response (analyzeFromUrl Node.URL Node.AZURE_ENDPOINT Node.AZURE_API_KEY
                (Node.service_fails (Node.rate_limited "BadArgument")) Node.now
                Node.cat_url) in
  let by_upload :=
    response (analyzeFromUpload Node.JSON_parse Node.AZURE_ENDPOINT Node.AZURE_API_KEY
                (Node.service_fails (Node.rate_limited "InvalidImage")) Node.now
                {| req_file := Some Node.cat_jpg; body_features := None |}) in
  status_of by_url = Some 429%Z
  /\ field_of by_url "error" = VStr "Invalid request parameters"
  /\ field_of by_url "error" <> VStr "Rate limit exceeded"
  /\ status_of by_upload = Some 429%Z
  /\ field_of by_upload "error" = VStr "Invalid or corrupted image"
  /\ field_of by_upload "error" <> VStr "Rate limit exceeded".
Proof.
  vm_compute. repeat split; discriminate.
Qed.

(** A response with status 429 and the body null: reading the error
    object throws inside the catch block and nothing is sent. *)
Example null_body_no_response :
  catch_analyzeFromUrl
    {| error_response := Some {| response_status := 429; response_data := VNull;
                                 response_headers := [] |};
       error_code := Some "ERR_BAD_REQUEST" |} = None.
Proof. reflexivity. Qed.

Lemma C1_rate_limit_witness :
  status_of (catch_analyzeFromUrl (Node.rate_limited "TooManyRequests")) = Some 429%Z
  /\ status_of (catch_analyzeFromUpload (Node.rate_limited "TooManyRequests")) = Some 429%Z
  /\ field_of (catch_analyzeFromUrl (Node.rate_limited "TooManyRequests")) "error"
     = VStr "Rate limit exceeded"
  /\ field_of (catch_analyzeFromUpload (Node.rate_limited "TooManyRequests")) "error"
     = VStr "Rate limit exceeded".
Proof.
  destruct (C1_rate_limit_message (Node.rate_limited "TooManyRequests")
              {| response_status := 429;
                 response_data :=
                   VObj [("error", VObj [("code", VStr "TooManyRequests");
                                         ("message", VStr "Too many calls")])];
                 response_headers := [] |}
              (VObj [("code", VStr "TooManyRequests"); ("message", VStr "Too many calls")])
              eq_refl eq_refl eq_refl) as [H1 [H2 [H3 [H4 _]]]].
  split; [exact H1|]. split; [exact H2|].
  split; [apply H3; reflexivity|apply H4; reflexivity].
Defined.

(** C2 at the failing input: a call of the upload route that is refused
    (ECONNREFUSED) or whose host does not resolve (ENOTFOUND) is answered
    with 500 Failed to analyze uploaded image, where the URL route answers
    the same failure with 503 Service unavailable. *)
Theorem C2_upload_unreachable_is_500 :
  let upload code :=
    response (analyzeFromUpload Node.JSON_parse Node.AZURE_ENDPOINT Node.AZURE_API_KEY
                (Node.service_fails (Node.no_response code)) Node.now
                {| req_file := Some Node.cat_jpg; body_features := None |}) in
  let by_url code :=
    response (analyzeFromUrl Node.URL Node.AZURE_ENDPOINT Node.AZURE_API_KEY
                (Node.service_fails (Node.no_response code)) Node.now Node.cat_url) in
  status_of (upload "ECONNREFUSED") = Some 500%Z
  /\ field_of (upload "ECONNREFUSED") "error" = VStr "Failed to analyze uploaded image"
  /\ status_of (upload "ENOTFOUND") = Some 500%Z
  /\ status_of (by_url "ECONNREFUSED") = Some 503%Z
  /\ field_of (by_url "ECONNREFUSED") "error" = VStr "Service unavailable"
  /\ status_of (by_url "ENOTFOUND") = Some 503%Z
  /\ status_of (upload "ECONNABORTED") = Some 504%Z
  /\ status_of (by_url "ECONNABORTED") = Some 504%Z.
Proof.
  vm_compute. repeat split.
Qed.

Lemma C3_javascript_scheme_witness :
  (forall u, Node.URL "javascript:alert(1)" = Some u ->
             protocol u <> "http:" /\ protocol u <> "https:")
  /\ calls (analyzeFromUrl Node.URL Node.AZURE_ENDPOINT Node.AZURE_API_KEY
              Node.service_ok Node.now
              {| url := VStr "javascript:alert(1)"; features := VUndefined |}) = []
  /\ status_of (response (analyzeFromUrl Node.URL Node.AZURE_ENDPOINT Node.AZURE_API_KEY
                            Node.service_ok Node.now
                            {| url := VStr "javascript:alert(1)";
                               features := VUndefined |})) = Some 400%Z.
Proof.
  assert (H : forall u, Node.URL "javascript:alert(1)" = Some u ->
                        protocol u <> "http:" /\ protocol u <> "https:").
  { intros u Hu. vm_compute in Hu. injection Hu as <-. split; discriminate. }
  split; [exact H|].
  destruct (C3_bad_scheme_rejected Node.URL Node.AZURE_ENDPOINT Node.AZURE_API_KEY
              Node.service_ok Node.now "javascript:alert(1)" VUndefined H)
    as [H1 [H2 _]].
  split; assumption.
Defined.

Example other_schemes_rejected :
  map (fun text =>
         analyzeFromUrl Node.URL Node.AZURE_ENDPOINT Node.AZURE_API_KEY
           Node.service_ok Node.now
           {| url := VStr text; features := VArr [VStr "Tags"] |})
      ["file:///etc/passwd"; "data:text/plain,cat"; "example.com/cat.jpg"]
  = repeat {| calls := [];
              response :=
                Some {| res_status := 400;
                        res_json :=
                          failure "Invalid URL format"
                            "URL must start with http:// or https:// and point to a valid image" |} |}
           3.
Proof. vm_compute. reflexivity. Qed.

Lemma C5_default_features_witness :
  calls (analyzeFromUrl Node.URL Node.AZURE_ENDPOINT Node.AZURE_API_KEY
           Node.service_ok Node.now
           {| url := VStr "https://example.com/cat.jpg"; features := VUndefined |})
  = [url_call Node.AZURE_ENDPOINT Node.AZURE_API_KEY "https://example.com/cat.jpg"
       "Description,Tags,Objects,Color"]
  /\ calls (analyzeFromUrl Node.URL Node.AZURE_ENDPOINT Node.AZURE_API_KEY
              Node.service_ok Node.now
              {| url := VStr "https://example.com/cat.jpg"; features := VArr [] |})
     = [url_call Node.AZURE_ENDPOINT Node.AZURE_API_KEY "https://example.com/cat.jpg" ""].
Proof.
  destruct (C5_default_features Node.URL Node.AZURE_ENDPOINT Node.AZURE_API_KEY
              Node.service_ok Node.now (VStr "https://example.com/cat.jpg")
              eq_refl eq_refl eq_refl) as [_ [_ [H1 [H2 _]]]].
  split; [exact H1|exact H2].
Defined.

(** The end-to-end run of the specification: a mocked success for
    https://example.com/cat.jpg gives success true, the data of the service
    and the default list as featuresUsed. *)
Example end_to_end_cat :
  response (analyzeFromUrl Node.URL Node.AZURE_ENDPOINT Node.AZURE_API_KEY
              Node.service_ok Node.now Node.cat_url)
  = Some {| res_status := 200;
            res_json :=
              VObj [("success", VBool true);
                    ("data", VObj [("description", VObj [])]);
                    ("metadata",
                      VObj [("requestId", VStr "r-1");
                            ("timestamp", VStr Node.now);
                            ("featuresUsed",
                              VArr [VStr "Description"; VStr "Tags";
                                    VStr "Objects"; VStr "Color"])])] |}.
Proof. vm_compute. reflexivity. Qed.

Lemma C6_size_boundaries_witness :
  analyzeFromUpload Node.JSON_parse Node.AZURE_ENDPOINT Node.AZURE_API_KEY
    Node.service_ok Node.now
    {| req_file := Some {| originalname := "cat.txt"; mimetype := "text/plain";
                           size := 4 * 1024 * 1024 + 1; buffer := "cat" |};
       body_features := None |}
  = {| calls := []; response := Some too_large |}
  /\ analyzeFromUpload Node.JSON_parse Node.AZURE_ENDPOINT Node.AZURE_API_KEY
       Node.service_ok Node.now
       {| req_file := Some {| originalname := "cat.txt"; mimetype := "text/plain";
                              size := 1023; buffer := "cat" |};
          body_features := None |}
     = {| calls := []; response := Some too_small |}
  /\ calls (analyzeFromUpload Node.JSON_parse Node.AZURE_ENDPOINT Node.AZURE_API_KEY
              Node.service_ok Node.now
              {| req_file := Some {| originalname := "cat.txt"; mimetype := "image/png";
                                     size := 1024; buffer := "cat" |};
                 body_features := None |})
     = [upload_call Node.AZURE_ENDPOINT Node.AZURE_API_KEY "cat"
          "Description,Tags,Objects,Color"]
  /\ calls (analyzeFromUpload Node.JSON_parse Node.AZURE_ENDPOINT Node.AZURE_API_KEY
              Node.service_ok Node.now
              {| req_file := Some {| originalname := "cat.txt"; mimetype := "image/png";
                                     size := 4 * 1024 * 1024; buffer := "cat" |};
                 body_features := None |})
     = [upload_call Node.AZURE_ENDPOINT Node.AZURE_API_KEY "cat"
          "Description,Tags,Objects,Color"].
Proof.
  destruct (C6_upload_size_boundaries Node.JSON_parse Node.AZURE_ENDPOINT
              Node.AZURE_API_KEY Node.service_ok Node.now
              "cat.txt" "cat" "text/plain" "image/png" None eq_refl)
    as [H1 [H2 [H3 [H4 _]]]].
  split; [exact H1|]. split; [exact H2|]. split; [exact H3|exact H4].
Defined.

Lemma C7_unknown_tag_witness :
  analyzeFromUrl Node.URL Node.AZURE_ENDPOINT Node.AZURE_API_KEY Node.service_ok Node.now
    {| url := VStr "https://example.com/cat.jpg";
       features := VArr [VStr "Tags"; VStr "Bogus"; VStr "faces"] |}
  = {| calls := []; response := Some (names_rejection ["Bogus"; "faces"]) |}
  /\ analyzeFromUpload Node.JSON_parse Node.AZURE_ENDPOINT Node.AZURE_API_KEY
       Node.service_ok Node.now
       {| req_file := Some Node.cat_jpg; body_features := Some "Tags, Bogus ,tags" |}
     = {| calls := []; response := Some (names_rejection ["Bogus"; "tags"]) |}.
Proof.
  assert (Hs : (1024 <= size Node.cat_jpg <= 4 * 1024 * 1024)%Z) by (simpl; lia).
  assert (Hne : "Tags, Bogus ,tags" <> "") by discriminate.
  assert (Hb : ~ In "Bogus" validFeatures).
  { simpl. intros H. repeat (destruct H as [H|H]; [discriminate H|]). exact H. }
  destruct (C7_unknown_tag_rejected Node.URL Node.JSON_parse Node.AZURE_ENDPOINT
              Node.AZURE_API_KEY Node.service_ok Node.now
              (VStr "https://example.com/cat.jpg") Node.cat_jpg "Tags, Bogus ,tags"
              ["Tags"; "Bogus"; "faces"] ["Tags"; "Bogus"; "tags"]
              eq_refl eq_refl eq_refl
              (ex_intro _ "Bogus" (conj (or_intror (or_introl eq_refl)) Hb))
              Hs eq_refl Hne eq_refl
              (ex_intro _ "Bogus" (conj (or_intror (or_introl eq_refl)) Hb)))
    as [H1 [H2 _]].
  split; [exact H1|exact H2].
Defined.

(** The rejection names the offending tags and the valid set. *)
Example names_rejection_text :
  names_rejection ["Bogus"; "faces"]
  = {| res_status := 400;
       res_json :=
         failure "Invalid feature names"
           "Invalid features: Bogus, faces. Valid features are: Description, Tags, Objects, Color, ImageType, Faces, Adult, Brands, Categories" |}.
Proof. reflexivity. Qed.

(** Elements that are no strings are offending as well and print by
    ToString. *)
Example mixed_elements_rejected :
  analyzeFromUrl Node.URL Node.AZURE_ENDPOINT Node.AZURE_API_KEY Node.service_ok Node.now
    {| url := VStr "https://example.com/cat.jpg";
       features := VArr [VStr "Tags"; VNum 7; VNull; VObj []] |}
  = {| calls := []; response := Some (names_rejection ["7"; ""; "[object Object]"]) |}.
Proof. vm_compute. reflexivity. Qed.


(** Both encodings of the features field end in the same call. *)
Example upload_both_encodings :
  calls (analyzeFromUpload Node.JSON_parse Node.AZURE_ENDPOINT Node.AZURE_API_KEY
           Node.service_ok Node.now
           {| req_file := Some Node.cat_jpg; body_features := Some "Tags, Objects" |})
  = [upload_call Node.AZURE_ENDPOINT Node.AZURE_API_KEY "cat" "Tags,Objects"]
  /\ calls (analyzeFromUpload Node.JSON_parse Node.AZURE_ENDPOINT Node.AZURE_API_KEY
              Node.service_ok Node.now
              {| req_file := Some Node.cat_jpg;
                 body_features := Some Node.tags_objects_json |})
     = [upload_call Node.AZURE_ENDPOINT Node.AZURE_API_KEY "cat" "Tags,Objects"].
Proof. vm_compute. split; reflexivity. Qed.

(** C9, as stated, fails: a features value that is not an array but falsy
    (here the number 0) is not rejected; the request is forwarded with the
    default list. *)
Lemma C9_falsy_features_forwarded :
  Array_isArray (VNum 0) = false
  /\ calls (analyzeFromUrl Node.URL Node.AZURE_ENDPOINT Node.AZURE_API_KEY
              Node.service_ok Node.now
              {| url := VStr "https://example.com/cat.jpg"; features := VNum 0 |})
     = [url_call Node.AZURE_ENDPOINT Node.AZURE_API_KEY "https://example.com/cat.jpg"
          "Description,Tags,Objects,Color"]
  /\ status_of (response (analyzeFromUrl Node.URL Node.AZURE_ENDPOINT Node.AZURE_API_KEY
                            Node.service_ok Node.now
                            {| url := VStr "https://example.com/cat.jpg";
                               features := VNum 0 |})) = Some 200%Z.
Proof. vm_compute. repeat split. Qed.

Lemma C9_stays_local_witness :
  (calls (analyzeFromUrl Node.URL Node.AZURE_ENDPOINT Node.AZURE_API_KEY
            Node.service_ok Node.now
            {| url := VStr "https://example.com/cat.jpg"; features := VStr "Tags" |}) = []
   /\ rejected_4xx
        (response (analyzeFromUrl Node.URL Node.AZURE_ENDPOINT Node.AZURE_API_KEY
                     Node.service_ok Node.now
                     {| url := VStr "https://example.com/cat.jpg";
                        features := VStr "Tags" |})))
  /\ (calls (analyzeFromUpload Node.JSON_parse Node.AZURE_ENDPOINT Node.AZURE_API_KEY
               Node.service_ok Node.now
               {| req_file := Some Node.cat_jpg; body_features := Some "{}" |}) = []
      /\ rejected_4xx
           (response (analyzeFromUpload Node.JSON_parse Node.AZURE_ENDPOINT
                        Node.AZURE_API_KEY Node.service_ok Node.now
                        {| req_file := Some Node.cat_jpg; body_features := Some "{}" |}))).
Proof.
  destruct (C9_validation_failure_stays_local Node.URL Node.JSON_parse
              Node.AZURE_ENDPOINT Node.AZURE_API_KEY Node.service_ok Node.now
              {| url := VStr "https://example.com/cat.jpg"; features := VStr "Tags" |}
              {| req_file := Some Node.cat_jpg; body_features := Some "{}" |}
              eq_refl eq_refl) as [[H1 H2] [[H3 H4] _]].
  split; split; [exact H1|exact (H2 eq_refl)|exact H3|exact (H4 eq_refl)].
Defined.

(** An unknown element that cannot be put into text: the rejection itself
    throws, and the answer is the 500 of the catch block; no call is made. *)
Example unprintable_tag_is_500 :
  analyzeFromUrl Node.URL Node.AZURE_ENDPOINT Node.AZURE_API_KEY Node.service_ok Node.now
    {| url := VStr "https://example.com/cat.jpg";
       features := VArr [VObj [("toString", VNum 1)]] |}
  = {| calls := [];
       response :=
         Some {| res_status := 500;
                 res_json := failure "Failed to analyze image"
                   "An unexpected error occurred. Please try again later." |} |}.
Proof. vm_compute. reflexivity. Qed.

(** ** Further properties of sanitizeUrl *)

Lemma Subseq_refl s : Subseq s s.
Proof. induction s; constructor; auto. Qed.

Lemma Subseq_trans a b c : Subseq a b -> Subseq b c -> Subseq a c.
Proof.
  intros Hab Hbc. revert a Hab.
  induction Hbc as [|x b c Hbc IH|x b c Hbc IH]; intros a Hab.
  - exact Hab.
  - inversion Hab; subst.
    + constructor. apply IH. assumption.
    + apply Subseq_drop. apply IH. assumption.
  - apply Subseq_drop. apply IH. exact Hab.
Qed.

Lemma Subseq_length a b : Subseq a b -> String.length a <= String.length b.
Proof. induction 1; simpl; lia. Qed.

Lemma Subseq_empty s : Subseq EmptyString s.
Proof. induction s; constructor; auto. Qed.

Lemma trimStart_Subseq s : Subseq (trimStart s) s.
Proof.
  induction s as [|c s IH]; simpl; [constructor|].
  destruct (is_space c); [apply Subseq_drop; exact IH|apply Subseq_refl].
Qed.

Lemma trimEnd_Subseq s : Subseq (trimEnd s) s.
Proof.
  induction s as [|c s IH]; simpl; [constructor|].
  destruct (trimEnd s) as [|d t].
  - destruct (is_space c).
    + apply Subseq_empty.
    + constructor. exact IH.
  - constructor. exact IH.
Qed.

Lemma remove_from_Subseq r :
  forall s skip prev, Subseq (remove_from r skip prev s) s.
Proof.
  induction s as [|c s IH]; intros skip prev; cbn [remove_from]; [constructor|].
  destruct skip as [|n].
  - destruct (match_at r prev (String c s)) as [rest|].
    + match goal with
      | |- context [match ?d with O => _ | S _ => _ end] => destruct d
      end.
      * constructor. apply IH.
      * apply Subseq_drop. apply IH.
    + constructor. apply IH.
  - apply Subseq_drop. apply IH.
Qed.

(** sanitizeUrl only deletes: its result is the input string with some
    characters taken out, in the same order, and so is never longer than
    the input. *)
Theorem sanitizeUrl_only_deletes (s : string) :
  Subseq (sanitizeUrl (VStr s)) s
  /\ String.length (sanitizeUrl (VStr s)) <= String.length s.
Proof.
  assert (H : Subseq (sanitizeUrl (VStr s)) s).
  { simpl. unfold sanitize_string, remove_all.
    eapply Subseq_trans; [apply remove_from_Subseq|].
    eapply Subseq_trans; [apply remove_from_Subseq|].
    eapply Subseq_trans; [apply remove_from_Subseq|].
    unfold trim. eapply Subseq_trans; [apply trimEnd_Subseq|apply trimStart_Subseq]. }
  split; [exact H|apply Subseq_length; exact H].
Qed.

Lemma trimEnd_idem s : trimEnd (trimEnd s) = trimEnd s.
Proof.
  induction s as [|c s IH]; simpl; auto.
  destruct (trimEnd s) as [|d t] eqn:E.
  - destruct (is_space c) eqn:Ec; simpl; auto. rewrite Ec. reflexivity.
  - simpl in *. rewrite IH. reflexivity.
Qed.

Lemma trimStart_fixed s :
  match s with String c _ => is_space c = false | EmptyString => True end ->
  trimStart s = s.
Proof. destruct s as [|c s]; simpl; auto. intros ->. reflexivity. Qed.

Lemma trimStart_head s :
  match trimStart s with String c _ => is_space c = false | EmptyString => True end.
Proof.
  induction s as [|c s IH]; simpl; auto.
  destruct (is_space c) eqn:E; auto.
Qed.

Lemma trimEnd_head s :
  match s with String c _ => is_space c = false | EmptyString => True end ->
  match trimEnd s with String c _ => is_space c = false | EmptyString => True end.
Proof.
  destruct s as [|c s]; simpl; auto. intros Hc.
  destruct (trimEnd s); [rewrite Hc|]; exact Hc.
Qed.

Lemma trim_idem s : trim (trim s) = trim s.
Proof.
  unfold trim.
  rewrite (trimStart_fixed (trimEnd (trimStart s))).
  - apply trimEnd_idem.
  - apply trimEnd_head. apply trimStart_head.
Qed.

(** White space around the input has no effect on the result: sanitizing
    the trimmed string gives what sanitizing the string gives. *)
Theorem sanitizeUrl_ignores_outer_space (s : string) :
  sanitizeUrl (VStr (trim s)) = sanitizeUrl (VStr s).
Proof. simpl. unfold sanitize_string. rewrite trim_idem. reflexivity. Qed.

(** ** validateFeatures and the check of the handlers *)

Lemma unknown_tag_valid_names names :
  (forall n, In n names -> In n validFeatures) ->
  existsb unknown_tag (map VStr names) = false.
Proof.
  induction names as [|n names IH]; intros H; [reflexivity|].
  cbn [map existsb]. rewrite unknown_tag_name.
  assert (Hn : is_valid n = true) by (apply is_valid_In; apply H; left; reflexivity).
  rewrite Hn. cbn [negb orb]. apply IH. intros m Hm. apply H. right. exact Hm.
Qed.

Lemma valid_items_valid_names items :
  existsb unknown_tag items = false ->
  exists names, items = map VStr names /\ (forall n, In n names -> In n validFeatures).
Proof.
  induction items as [|x items IH]; cbn [existsb]; intros H.
  - exists []. split; [reflexivity|]. intros n [].
  - apply orb_false_elim in H. destruct H as [Hx H].
    destruct (IH H) as [names [-> Hv]].
    destruct x; try (unfold unknown_tag, includes in Hx; simpl in Hx; discriminate Hx).
    exists (s :: names). split; [reflexivity|].
    intros n [<-|Hn]; [|apply Hv; exact Hn].
    apply is_valid_In. rewrite unknown_tag_name in Hx.
    apply negb_false_iff in Hx. exact Hx.
Qed.

Lemma validateFeatures_array items :
  validateFeatures (VArr items) = negb (existsb unknown_tag items).
Proof.
  unfold validateFeatures. fold validFeatures.
  induction items as [|x items IH]; [reflexivity|].
  cbn [forallb existsb]. rewrite IH. unfold unknown_tag.
  destruct (includes validFeatures x); reflexivity.
Qed.

Lemma check_names_next items :
  check_names items [] = (Next items, []) <-> existsb unknown_tag items = false.
Proof.
  split; [|apply check_names_ok].
  intros H. destruct (existsb unknown_tag items) eqn:E; [|reflexivity].
  destruct (element_texts (invalid_of items)) as [texts|] eqn:Ht.
  - rewrite (check_names_rejected _ _ E Ht) in H. discriminate H.
  - rewrite (check_names_throws _ E Ht) in H. discriminate H.
Qed.

(** validateFeatures, which no handler calls, decides what the check
    written out in both handlers decides: it answers true exactly on the
    arrays of names of the fixed set (the empty array among them), and an
    array passes the handlers' check exactly when validateFeatures answers
    true on it; every value that is no array gets false. *)
Theorem validateFeatures_is_the_handlers_check (v : value) :
  (validateFeatures v = true
   <-> exists names, v = VArr (map VStr names)
                     /\ (forall n, In n names -> In n validFeatures))
  /\ (forall items, v = VArr items ->
        (validateFeatures v = true <-> check_names items [] = (Next items, [])))
  /\ (Array_isArray v = false -> validateFeatures v = false).
Proof.
  split; [|split].
  - split.
    + intros H. destruct v; try discriminate H.
      rewrite validateFeatures_array in H. apply negb_true_iff in H.
      destruct (valid_items_valid_names _ H) as [names [-> Hv]].
      exists names. split; [reflexivity|exact Hv].
    + intros [names [-> Hv]]. rewrite validateFeatures_array.
      rewrite (unknown_tag_valid_names _ Hv). reflexivity.
  - intros items ->. rewrite validateFeatures_array, check_names_next.
    destruct (existsb unknown_tag items); simpl; split; congruence.
  - intros H. destruct v; try reflexivity. discriminate H.
Qed.

(** ** The routes *)

(** Every declared type that the upload handler accepts passes the file
    filter of the route, so the filter never keeps a supported image from
    the handler. *)
Theorem accepted_types_pass_fileFilter (mimetype : string) :
  includes validMimeTypes (VStr mimetype) = true ->
  Routes.fileFilter mimetype = Routes.Accept.
Proof.
  unfold includes, validMimeTypes. cbn [existsb strict_eq_str]. intros H.
  repeat (apply orb_prop in H; destruct H as [H|H];
          [apply String.eqb_eq in H; subst; reflexivity|]).
  discriminate H.
Qed.

Lemma accepted_types_witness :
  includes validMimeTypes (VStr "image/webp") = true
  /\ Routes.fileFilter "image/webp" = Routes.Accept.
Proof.
  split; [reflexivity|].
  apply (accepted_types_pass_fileFilter "image/webp"). reflexivity.
Defined.

(** The filter is wider than the handler: an image type outside the five
    passes the filter and is answered 415 by the handler. *)
Example tiff_passes_filter_only :
  Routes.fileFilter "image/tiff" = Routes.Accept
  /\ status_of (response (analyzeFromUpload Node.JSON_parse Node.AZURE_ENDPOINT
                            Node.AZURE_API_KEY Node.service_ok Node.now
                            {| req_file := Some {| originalname := "cat.tiff";
                                                   mimetype := "image/tiff";
                                                   size := 2048; buffer := "cat" |};
                               body_features := None |})) = Some 415%Z
  /\ Routes.fileFilter "text/plain" = Routes.Refuse "Only image files are allowed!".
Proof. vm_compute. repeat split. Qed.

(** ** Every outcome of the handlers *)

Lemma catch_analyzeFromUrl_fails error r :
  catch_analyzeFromUrl error = Some r ->
  get_field_opt (res_json r) "success" = VBool false.
Proof.
  unfold catch_analyzeFromUrl. intros H.
  destruct (error_response error) as [up|].
  - destruct (get_field (response_data up) "error") as [a|]; [|discriminate H].
    repeat match type of H with
           | context [if ?b then _ else _] => destruct b
           end; injection H as <-; reflexivity.
  - repeat match type of H with
           | context [if ?b then _ else _] => destruct b
           end; injection H as <-; reflexivity.
Qed.

Lemma catch_analyzeFromUpload_fails error r :
  catch_analyzeFromUpload error = Some r ->
  get_field_opt (res_json r) "success" = VBool false.
Proof.
  unfold catch_analyzeFromUpload. intros H.
  destruct (error_response error) as [up|].
  - destruct (get_field (response_data up) "error") as [a|]; [|discriminate H].
    repeat match type of H with
           | context [if ?b then _ else _] => destruct b
           end; injection H as <-; reflexivity.
  - repeat match type of H with
           | context [if ?b then _ else _] => destruct b
           end; injection H as <-; reflexivity.
Qed.

Lemma default_features_valid n : In n defaultFeatures -> In n validFeatures.
Proof.
  unfold defaultFeatures, validFeatures. cbn [In]. intros H.
  repeat (destruct H as [<-|H]; [auto 10|]). destruct H.
Qed.

Section Outcomes.

Variable URL : string -> option urlObject.
Variable JSON_parse : string -> option value.
Variable AZURE_ENDPOINT AZURE_API_KEY : string.
Variable axios_post : outbound_call -> axios_result.
Variable now : string.

Local Abbreviation fromUrl := (analyzeFromUrl URL AZURE_ENDPOINT AZURE_API_KEY axios_post now).
Local Abbreviation fromUpload :=
  (analyzeFromUpload JSON_parse AZURE_ENDPOINT AZURE_API_KEY axios_post now).
Local Abbreviation urlCall := (url_call AZURE_ENDPOINT AZURE_API_KEY).
Local Abbreviation uploadCall := (upload_call AZURE_ENDPOINT AZURE_API_KEY).

(** The answer to a request that fails a validation check is local: no
    call, success false, status 400 (URL route), or 500 when the rejection
    itself throws. *)
Lemma url_failure_answer body :
  url_failure URL body = true ->
  calls (fromUrl body) = []
  /\ exists r, response (fromUrl body) = Some r
               /\ get_field_opt (res_json r) "success" = VBool false
               /\ (res_status r = 400 \/ res_status r = 500)%Z.
Proof.
  intros H. destruct (url_failure_local URL AZURE_ENDPOINT AZURE_API_KEY axios_post now
                        body H) as [Hc Hr].
  split; [exact Hc|].
  destruct (url_printable body) eqn:Hp.
  - destruct (Hr eq_refl) as [r [Hs [_ Hok]]]. exists r.
    split; [exact Hs|]. split; [exact Hok|].
    (* every rejection of the URL route carries 400 *)
    clear Hr Hc. revert Hs. destruct body as [u feats].
    unfold url_failure in H. cbn [url features] in H.
    destruct (truthy u) eqn:H1.
    2:{ rewrite url_missing by assumption. intros [= <-]. left. reflexivity. }
    destruct (validateImageUrl URL u) eqn:H2.
    2:{ rewrite url_invalid by assumption. intros [= <-]. left. reflexivity. }
    destruct (length_exceeds u 2048) eqn:H3.
    { rewrite url_too_long by assumption. intros [= <-]. left. reflexivity. }
    rewrite (url_checked URL AZURE_ENDPOINT AZURE_API_KEY axios_post now
               {| url := u; features := feats |} H1 H2 H3).
    cbn [features negb orb] in H |- *.
    unfold url_printable in Hp. cbn [features] in Hp.
    destruct feats as [| |b|n|s|items|props]; cbn [Array_isArray negb andb orb] in H;
      try discriminate H;
      try (unfold run, bind, url_features; rewrite andb_true_r, orb_false_r in H;
           rewrite H; intros [= <-]; left; reflexivity).
    rewrite andb_false_r in H. cbn [orb] in H.
    unfold printable in Hp.
    destruct (element_texts (invalid_of items)) as [texts|] eqn:Ht; [|discriminate Hp].
    rewrite url_features_array.
    rewrite (run_returns _ _ _ _ _ (check_names_rejected _ _ H Ht)).
    intros [= <-]. left. reflexivity.
  - (* the rejection throws *)
    destruct body as [u feats]. unfold url_printable in Hp. cbn [features] in Hp.
    destruct feats; try discriminate Hp.
    unfold printable in Hp.
    destruct (element_texts (invalid_of items)) as [texts|] eqn:Ht; [discriminate Hp|].
    unfold url_failure in H. cbn [url features] in H.
    destruct (truthy u) eqn:H1.
    2:{ rewrite url_missing by assumption. eexists. split; [reflexivity|].
        split; [reflexivity|left; reflexivity]. }
    destruct (validateImageUrl URL u) eqn:H2.
    2:{ rewrite url_invalid by assumption. eexists. split; [reflexivity|].
        split; [reflexivity|left; reflexivity]. }
    destruct (length_exceeds u 2048) eqn:H3.
    { rewrite url_too_long by assumption. eexists. split; [reflexivity|].
      split; [reflexivity|left; reflexivity]. }
    cbn [negb orb Array_isArray andb] in H. rewrite andb_false_r in H. cbn [orb] in H.
    rewrite (url_checked URL AZURE_ENDPOINT AZURE_API_KEY axios_post now
               {| url := u; features := VArr items |} H1 H2 H3).
    cbn [features]. rewrite url_features_array.
    rewrite (run_throws _ _ _ _ _ (check_names_throws _ H Ht)).
    eexists. split; [reflexivity|]. split; [reflexivity|right; reflexivity].
Qed.

(** A request without a validation failure: the one call and the answer. *)
Lemma url_success_answer body :
  url_failure URL body = false ->
  exists names,
    (forall n, In n names -> In n validFeatures)
    /\ (names = [] -> features body = VArr [])
    /\ fromUrl body
       = {| calls := [urlCall (sanitizeUrl (url body)) (join_strings "," names)];
            response :=
              match axios_post (urlCall (sanitizeUrl (url body)) (join_strings "," names)) with
              | Fulfilled response =>
                  Some {| res_status := 200;
                          res_json :=
                            VObj [("success", VBool true);
                                  ("data", response_data response);
                                  ("metadata",
                                    VObj [("requestId",
                                            header "apim-request-id"
                                              (response_headers response));
                                          ("timestamp", VStr now);
                                          ("featuresUsed", VArr (map VStr names))])] |}
              | Rejected error => catch_analyzeFromUrl error
              end |}.
Proof.
  intros H. destruct (url_passes URL body H) as [H1 [H2 [H3 _]]].
  destruct body as [u feats]. unfold url_failure in H.
  cbn [url features] in H, H1, H2, H3 |- *.
  apply orb_false_elim in H. destruct H as [H He].
  apply orb_false_elim in H. destruct H as [_ Hd].
  assert (Hf : exists names,
             (forall n, In n names -> In n validFeatures)
             /\ (names = [] -> feats = VArr [])
             /\ url_features feats [] = (Next (map VStr names), [])).
  { unfold url_features. destruct (truthy feats) eqn:Ht.
    - destruct feats; cbn [Array_isArray negb andb] in Hd; try discriminate.
      destruct (valid_items_valid_names _ He) as [names [-> Hv]].
      exists names. split; [exact Hv|]. split; [intros ->; reflexivity|].
      fold (check_names (map VStr names)). apply check_names_ok. exact He.
    - exists defaultFeatures. split.
      + exact default_features_valid.
      + split; [discriminate|reflexivity]. }
  destruct Hf as [names [Hv [Hn Hf]]]. exists names.
  split; [exact Hv|]. split; [exact Hn|].
  apply (url_forward URL AZURE_ENDPOINT AZURE_API_KEY axios_post now
           {| url := u; features := feats |} names H1 H2 H3 Hf).
Qed.

Lemma upload_failure_answer req :
  upload_failure JSON_parse req = true ->
  calls (fromUpload req) = []
  /\ exists r, response (fromUpload req) = Some r
               /\ get_field_opt (res_json r) "success" = VBool false
               /\ (res_status r = 400 \/ res_status r = 413
                   \/ res_status r = 415 \/ res_status r = 500)%Z.
Proof.
  intros H.
  destruct (upload_failure_local JSON_parse AZURE_ENDPOINT AZURE_API_KEY axios_post now
              req H) as [Hc _].
  split; [exact Hc|]. clear Hc.
  destruct req as [[file|] field]; unfold upload_failure in H;
    cbn [req_file body_features] in H.
  2:{ rewrite upload_no_file. eexists. split; [reflexivity|].
      split; [reflexivity|left; reflexivity]. }
  destruct (4 * 1024 * 1024 <? size file)%Z eqn:H1.
  { apply Z.ltb_lt in H1. rewrite upload_too_large by assumption.
    eexists. split; [reflexivity|]. split; [reflexivity|right; left; reflexivity]. }
  destruct (size file <? 1024)%Z eqn:H2.
  { apply Z.ltb_lt in H2. rewrite upload_too_small by assumption.
    eexists. split; [reflexivity|]. split; [reflexivity|left; reflexivity]. }
  apply Z.ltb_ge in H1. apply Z.ltb_ge in H2.
  destruct (includes validMimeTypes (VStr (mimetype file))) eqn:H3.
  2:{ rewrite upload_bad_type by (auto; lia). eexists. split; [reflexivity|].
      split; [reflexivity|right; right; left; reflexivity]. }
  cbn [negb orb] in H.
  rewrite upload_checked by (auto; lia).
  destruct field as [text|]; [|discriminate H].
  apply andb_prop in H. destruct H as [Ht H].
  assert (Hne : text <> "").
  { simpl in Ht. apply negb_true_iff in Ht. apply String.eqb_neq. exact Ht. }
  rewrite (upload_features_parsed _ _ Hne).
  destruct (parsed_features JSON_parse text) as [items|].
  - destruct (element_texts (invalid_of items)) as [texts|] eqn:Hx.
    + rewrite (run_returns _ _ _ _ _ (check_names_rejected _ _ H Hx)).
      eexists. split; [reflexivity|]. split; [reflexivity|left; reflexivity].
    + rewrite (run_throws _ _ _ _ _ (check_names_throws _ H Hx)).
      eexists. split; [reflexivity|].
      split; [reflexivity|right; right; right; reflexivity].
  - erewrite run_returns by reflexivity.
    eexists. split; [reflexivity|]. split; [reflexivity|left; reflexivity].
Qed.

Lemma upload_success_answer file field :
  upload_failure JSON_parse {| req_file := Some file; body_features := field |} = false ->
  exists names,
    (forall n, In n names -> In n validFeatures)
    /\ fromUpload {| req_file := Some file; body_features := field |}
       = {| calls := [uploadCall (buffer file) (join_strings "," names)];
            response :=
              match axios_post (uploadCall (buffer file) (join_strings "," names)) with
              | Fulfilled response =>
                  Some {| res_status := 200;
                          res_json :=
                            VObj [("success", VBool true);
                                  ("data", response_data response);
                                  ("metadata",
                                    VObj [("filename", VStr (originalname file));
                                          ("size", VNum (size file));
                                          ("mimeType", VStr (mimetype file));
                                          ("featuresUsed", VArr (map VStr names));
                                          ("requestId",
                                            header "apim-request-id"
                                              (response_headers response));
                                          ("timestamp", VStr now)])] |}
              | Rejected error => catch_analyzeFromUpload error
              end |}.
Proof.
  intros H. destruct (upload_passes JSON_parse file field H) as [Hs [Hm _]].
  unfold upload_failure in H. cbn [req_file body_features] in H.
  apply orb_false_elim in H. destruct H as [_ Hf].
  assert (Hn : exists names,
             (forall n, In n names -> In n validFeatures)
             /\ upload_features JSON_parse field [] = (Next (map VStr names), [])).
  { assert (Hd : forall n, In n defaultFeatures -> In n validFeatures).
    { exact default_features_valid. }
    destruct field as [text|]; [|exists defaultFeatures; split; [exact Hd|reflexivity]].
    destruct (truthy (VStr text)) eqn:Ht.
    - assert (Hne : text <> "").
      { simpl in Ht. apply negb_true_iff in Ht. apply String.eqb_neq. exact Ht. }
      rewrite (upload_features_parsed _ _ Hne).
      cbn [andb] in Hf.
      destruct (parsed_features JSON_parse text) as [items|]; [|discriminate Hf].
      destruct (valid_items_valid_names _ Hf) as [names [-> Hv]].
      exists names. split; [exact Hv|]. apply check_names_ok. exact Hf.
    - exists defaultFeatures. split; [exact Hd|].
      unfold upload_features. rewrite Ht. reflexivity. }
  destruct Hn as [names [Hv Hn]]. exists names. split; [exact Hv|].
  apply (upload_forward JSON_parse AZURE_ENDPOINT AZURE_API_KEY axios_post now
           file field names Hs Hm Hn).
Qed.

(** No retry: whatever the request and whatever the service does, a
    handler makes at most one outbound call. *)
Theorem at_most_one_call (body : url_body) (req : upload_request) :
  List.length (calls (fromUrl body)) <= 1
  /\ List.length (calls (fromUpload req)) <= 1.
Proof.
  split.
  - destruct (url_failure URL body) eqn:H.
    + destruct (url_failure_answer body H) as [-> _]. simpl. lia.
    + destruct (url_success_answer body H) as [names [_ [_ ->]]]. simpl. lia.
  - destruct (upload_failure JSON_parse req) eqn:H.
    + destruct (upload_failure_answer req H) as [-> _]. simpl. lia.
    + destruct req as [[file|] field]; [|discriminate H].
      destruct (upload_success_answer file field H) as [names [_ ->]]. simpl. lia.
Qed.

Lemma url_call_facts (body : url_body) (call : outbound_call) :
  In call (calls (fromUrl body)) ->
  truthy (url body) = true
  /\ validateImageUrl URL (url body) = true
  /\ length_exceeds (url body) 2048 = false
  /\ post_data call = JsonBody (VObj [("url", VStr (sanitizeUrl (url body)))])
  /\ post_timeout call = 30000%Z
  /\ exists names,
       (forall n, In n names -> In n validFeatures)
       /\ feature_param call = Some (join_strings "," names)
       /\ (names = [] -> features body = VArr []).
Proof.
  intros Hin. destruct (url_failure URL body) eqn:H.
  - destruct (url_failure_answer body H) as [Hc _]. rewrite Hc in Hin. destruct Hin.
  - destruct (url_passes URL body H) as [H1 [H2 [H3 _]]].
    destruct (url_success_answer body H) as [names [Hv [Hn Ho]]].
    rewrite Ho in Hin. cbn [calls] in Hin. destruct Hin as [<-|[]].
    repeat (split; [assumption || reflexivity|]).
    exists names. split; [exact Hv|]. split; [reflexivity|exact Hn].
Qed.

(** What the URL route forwards has passed every check: the url is truthy,
    parses with http or https and is not over-long; the body of the call is
    the sanitized url, the timeout is 30 seconds, and the feature parameter
    is the comma-joined list of names of the fixed set, empty only when the
    caller sent an empty array. *)
Theorem forwarded_url_call_is_validated (body : url_body) (call : outbound_call) :
  In call (calls (fromUrl body)) ->
  truthy (url body) = true
  /\ validateImageUrl URL (url body) = true
  /\ length_exceeds (url body) 2048 = false
  /\ post_data call = JsonBody (VObj [("url", VStr (sanitizeUrl (url body)))])
  /\ post_timeout call = 30000%Z
  /\ exists names,
       (forall n, In n names -> In n validFeatures)
       /\ feature_param call = Some (join_strings "," names)
       /\ (names = [] -> features body = VArr []).
Proof. apply url_call_facts. Qed.

(** What the upload route forwards has passed every check: the file has
    between 1024 and 4*1024*1024 bytes and one of the five types; the body
    of the call is the buffer of the file, the body limit is 4 MiB, and the
    feature parameter is a comma-joined list of names of the fixed set. *)
Theorem forwarded_upload_call_is_validated (req : upload_request) (call : outbound_call) :
  In call (calls (fromUpload req)) ->
  exists file,
    req_file req = Some file
    /\ (1024 <= size file <= 4 * 1024 * 1024)%Z
    /\ includes validMimeTypes (VStr (mimetype file)) = true
    /\ post_data call = RawBody (buffer file)
    /\ post_timeout call = 30000%Z
    /\ post_maxBodyLength call = Some (4 * 1024 * 1024)%Z
    /\ exists names,
         (forall n, In n names -> In n validFeatures)
         /\ feature_param call = Some (join_strings "," names).
Proof.
  intros Hin. destruct (upload_failure JSON_parse req) eqn:H.
  - destruct (upload_failure_answer req H) as [Hc _]. rewrite Hc in Hin. destruct Hin.
  - destruct req as [[file|] field]; [|discriminate H].
    destruct (upload_passes JSON_parse file field H) as [Hs [Hm _]].
    destruct (upload_success_answer file field H) as [names [Hv Ho]].
    rewrite Ho in Hin. cbn [calls] in Hin. destruct Hin as [<-|[]].
    exists file. split; [reflexivity|]. split; [exact Hs|]. split; [exact Hm|].
    split; [reflexivity|]. split; [reflexivity|]. split; [reflexivity|].
    exists names. split; [exact Hv|reflexivity].
Qed.

(** A url that is no string but passes the checks (an array whose text is
    an http URL does) is forwarded as the empty string: sanitizeUrl answers
    the empty string on it. *)
Theorem non_string_url_is_forwarded_empty (body : url_body) (call : outbound_call) :
  typeof (url body) <> "string" ->
  In call (calls (fromUrl body)) ->
  post_data call = JsonBody (VObj [("url", VStr "")]).
Proof.
  intros Ht Hin.
  destruct (url_call_facts body call Hin) as [_ [_ [_ [Hd _]]]].
  rewrite Hd. destruct (url body); try reflexivity.
  exfalso. apply Ht. reflexivity.
Qed.

(** A request answered without an outbound call is a failure of the
    handler's own: success false, with status 400 or 500 in the URL route
    and 400, 413, 415 or 500 in the upload route. *)
Theorem local_answers_are_failures (body : url_body) (req : upload_request) :
  calls (fromUrl body) = [] ->
  calls (fromUpload req) = [] ->
  (exists r, response (fromUrl body) = Some r
             /\ get_field_opt (res_json r) "success" = VBool false
             /\ (res_status r = 400 \/ res_status r = 500)%Z)
  /\ (exists r, response (fromUpload req) = Some r
                /\ get_field_opt (res_json r) "success" = VBool false
                /\ (res_status r = 400 \/ res_status r = 413
                    \/ res_status r = 415 \/ res_status r = 500)%Z).
Proof.
  intros Hu Hr. split.
  - destruct (url_failure URL body) eqn:H.
    + apply (url_failure_answer body H).
    + destruct (url_success_answer body H) as [names [_ [_ Ho]]].
      rewrite Ho in Hu. discriminate Hu.
  - destruct (upload_failure JSON_parse req) eqn:H.
    + apply (upload_failure_answer req H).
    + destruct req as [[file|] field]; [|discriminate H].
      destruct (upload_success_answer file field H) as [names [_ Ho]].
      rewrite Ho in Hr. discriminate Hr.
Qed.

(** An answer with success true of the URL route is the answer of the
    service: exactly one call was made and fulfilled, the status is 200,
    data is the payload of the service as it came, requestId is its
    apim-request-id header and featuresUsed is the list that was sent. *)
Theorem url_success_is_the_service_answer (body : url_body) (r : http_response) :
  response (fromUrl body) = Some r ->
  get_field_opt (res_json r) "success" = VBool true ->
  exists call up names,
    calls (fromUrl body) = [call]
    /\ axios_post call = Fulfilled up
    /\ res_status r = 200%Z
    /\ get_field_opt (res_json r) "data" = response_data up
    /\ get_field_opt (get_field_opt (res_json r) "metadata") "requestId"
       = header "apim-request-id" (response_headers up)
    /\ get_field_opt (get_field_opt (res_json r) "metadata") "featuresUsed"
       = VArr (map VStr names)
    /\ feature_param call = Some (join_strings "," names).
Proof.
  intros Hr Hs. destruct (url_failure URL body) eqn:H.
  - destruct (url_failure_answer body H) as [_ [r' [Hr' [Hs' _]]]].
    rewrite Hr in Hr'. injection Hr' as <-. congruence.
  - destruct (url_success_answer body H) as [names [_ [_ Ho]]].
    rewrite Ho in Hr |- *. cbn [calls response] in Hr |- *.
    destruct (axios_post _) as [up|error] eqn:Hp.
    + injection Hr as <-. eexists _, up, names.
      split; [reflexivity|]. split; [exact Hp|]. repeat split.
    + apply catch_analyzeFromUrl_fails in Hr. congruence.
Qed.

(** The same for the upload route, whose answer also gives back the name,
    the size and the declared type of the file. *)
Theorem upload_success_is_the_service_answer (req : upload_request) (r : http_response) :
  response (fromUpload req) = Some r ->
  get_field_opt (res_json r) "success" = VBool true ->
  exists file call up names,
    req_file req = Some file
    /\ calls (fromUpload req) = [call]
    /\ axios_post call = Fulfilled up
    /\ res_status r = 200%Z
    /\ get_field_opt (res_json r) "data" = response_data up
    /\ get_field_opt (get_field_opt (res_json r) "metadata") "filename"
       = VStr (originalname file)
    /\ get_field_opt (get_field_opt (res_json r) "metadata") "size" = VNum (size file)
    /\ get_field_opt (get_field_opt (res_json r) "metadata") "mimeType"
       = VStr (mimetype file)
    /\ get_field_opt (get_field_opt (res_json r) "metadata") "featuresUsed"
       = VArr (map VStr names)
    /\ post_data call = RawBody (buffer file).
Proof.
  intros Hr Hs. destruct (upload_failure JSON_parse req) eqn:H.
  - destruct (upload_failure_answer req H) as [_ [r' [Hr' [Hs' _]]]].
    rewrite Hr in Hr'. injection Hr' as <-. congruence.
  - destruct req as [[file|] field]; [|discriminate H].
    destruct (upload_success_answer file field H) as [names [_ Ho]].
    rewrite Ho in Hr |- *. cbn [calls response req_file] in Hr |- *.
    destruct (axios_post _) as [up|error] eqn:Hp.
    + injection Hr as <-. eexists file, _, up, names.
      split; [reflexivity|]. split; [reflexivity|]. split; [exact Hp|]. repeat split.
    + apply catch_analyzeFromUpload_fails in Hr. congruence.
Qed.

(** A handler ends without sending a response in one case only: the call
    was made, the service answered with an error status, and the body of
    that answer is null or undefined. *)
Theorem no_response_only_on_null_error_body (body : url_body) (req : upload_request) :
  (response (fromUrl body) = None ->
   exists call error up,
     calls (fromUrl body) = [call] /\ axios_post call = Rejected error
     /\ error_response error = Some up /\ nullish (response_data up) = true)
  /\ (response (fromUpload req) = None ->
      exists call error up,
        calls (fromUpload req) = [call] /\ axios_post call = Rejected error
        /\ error_response error = Some up /\ nullish (response_data up) = true).
Proof.
  assert (Hnull : forall v, get_field v "error" = None -> nullish v = true).
  { intros v. destruct v; simpl; intros E; try reflexivity; discriminate E. }
  split.
  - intros Hn. destruct (url_failure URL body) eqn:H.
    + destruct (url_failure_answer body H) as [_ [r [Hr _]]]. congruence.
    + destruct (url_success_answer body H) as [names [_ [_ Ho]]].
      rewrite Ho in Hn |- *. cbn [calls response] in Hn |- *.
      destruct (axios_post _) as [up|error] eqn:Hp; [discriminate Hn|].
      unfold catch_analyzeFromUrl in Hn.
      destruct (error_response error) as [up|] eqn:He.
      * destruct (get_field (response_data up) "error") as [a|] eqn:Hg.
        -- repeat match type of Hn with
                  | context [if ?b then _ else _] => destruct b
                  end; discriminate Hn.
        -- eexists _, error, up. repeat split; auto.
      * repeat match type of Hn with
               | context [if ?b then _ else _] => destruct b
               end; discriminate Hn.
  - intros Hn. destruct (upload_failure JSON_parse req) eqn:H.
    + destruct (upload_failure_answer req H) as [_ [r [Hr _]]]. congruence.
    + destruct req as [[file|] field]; [|discriminate H].
      destruct (upload_success_answer file field H) as [names [_ Ho]].
      rewrite Ho in Hn |- *. cbn [calls response] in Hn |- *.
      destruct (axios_post _) as [up|error] eqn:Hp; [discriminate Hn|].
      unfold catch_analyzeFromUpload in Hn.
      destruct (error_response error) as [up|] eqn:He.
      * destruct (get_field (response_data up) "error") as [a|] eqn:Hg.
        -- repeat match type of Hn with
                  | context [if ?b then _ else _] => destruct b
                  end; discriminate Hn.
        -- eexists _, error, up. repeat split; auto.
      * repeat match type of Hn with
               | context [if ?b then _ else _] => destruct b
               end; discriminate Hn.
Qed.

(** When the text of the rejection cannot be built (the list holds an
    unknown element whose conversion to text throws), the URL route answers
    with the 500 of its catch block and makes no call. *)
Theorem rejection_that_throws_is_500 (u : value) (items : list value) :
  truthy u = true ->
  validateImageUrl URL u = true ->
  length_exceeds u 2048 = false ->
  existsb unknown_tag items = true ->
  element_texts (invalid_of items) = None ->
  fromUrl {| url := u; features := VArr items |}
  = {| calls := [];
       response :=
         Some {| res_status := 500;
                 res_json := failure "Failed to analyze image"
                   "An unexpected error occurred. Please try again later." |} |}.
Proof.
  intros H1 H2 H3 Hu Ht.
  rewrite (url_checked URL AZURE_ENDPOINT AZURE_API_KEY axios_post now
             {| url := u; features := VArr items |} H1 H2 H3).
  cbn [features]. rewrite url_features_array.
  rewrite (run_throws _ _ _ _ _ (check_names_throws _ Hu Ht)). reflexivity.
Qed.

(** What GET /features lists is what the URL route accepts: a list made of
    advertised names, in any number and order, passes the check of the
    names and is forwarded as it is; the advertised names are the names of
    the fixed set. *)
Theorem advertised_features_are_accepted (u : value) (names : list string) :
  truthy u = true ->
  validateImageUrl URL u = true ->
  length_exceeds u 2048 = false ->
  (forall n, In n names -> In n Routes.advertised) ->
  calls (fromUrl {| url := u; features := VArr (map VStr names) |})
  = [urlCall (sanitizeUrl u) (join_strings "," names)]
  /\ validateFeatures (VArr (map VStr names)) = true
  /\ (forall n, In n Routes.advertised <-> In n validFeatures).
Proof.
  intros H1 H2 H3 Ha.
  assert (Hv : existsb unknown_tag (map VStr names) = false).
  { apply unknown_tag_valid_names. exact Ha. }
  split; [|split].
  - rewrite (url_forward URL AZURE_ENDPOINT AZURE_API_KEY axios_post now
               {| url := u; features := VArr (map VStr names) |} names H1 H2 H3).
    + reflexivity.
    + cbn [features]. rewrite url_features_array. apply check_names_ok. exact Hv.
  - rewrite validateFeatures_array, Hv. reflexivity.
  - intros n. reflexivity.
Qed.

End Outcomes.

(** ** Further properties of the translation of errors *)

(** The status of the service is the status of the answer: for every
    upstream error with a body other than null, in both routes, the answer
    carries the upstream status, success false and the external code as the
    service gave it. *)
Theorem upstream_status_is_preserved (error : js_error) (up : upstream_response)
    (azureError : value) :
  error_response error = Some up ->
  get_field (response_data up) "error" = Some azureError ->
  status_of (catch_analyzeFromUrl error) = Some (response_status up)
  /\ status_of (catch_analyzeFromUpload error) = Some (response_status up)
  /\ field_of (catch_analyzeFromUrl error) "success" = VBool false
  /\ field_of (catch_analyzeFromUpload error) "success" = VBool false
  /\ field_of (catch_analyzeFromUrl error) "code" = get_field_opt azureError "code"
  /\ field_of (catch_analyzeFromUpload error) "code" = get_field_opt azureError "code".
Proof.
  intros He Ha. unfold catch_analyzeFromUrl, catch_analyzeFromUpload.
  rewrite He, Ha.
  repeat match goal with
         | |- context [if ?b then _ else _] => destruct b
         end; repeat split.
Qed.

(** A code that the switch of a route does not name, with a status other
    than 429: the message is Azure API error and the details are the message
    of the service when it has one, else a fixed sentence.  In the upload
    route this is also the answer to InvalidImageUrl and BadArgument. *)
Theorem unnamed_code_gives_service_message (error : js_error) (up : upstream_response)
    (azureError : value) :
  error_response error = Some up ->
  get_field (response_data up) "error" = Some azureError ->
  response_status up <> 429%Z ->
  (includes url_codes (get_field_opt azureError "code") = false ->
   field_of (catch_analyzeFromUrl error) "error" = VStr "Azure API error"
   /\ field_of (catch_analyzeFromUrl error) "details"
      = or_else (get_field_opt azureError "message")
          (VStr "An error occurred while processing your request."))
  /\ (includes upload_codes (get_field_opt azureError "code") = false ->
      field_of (catch_analyzeFromUpload error) "error" = VStr "Azure API error"
      /\ field_of (catch_analyzeFromUpload error) "details"
         = or_else (get_field_opt azureError "message")
             (VStr "An error occurred while processing your image.")).
Proof.
  intros He Ha Hs. apply Z.eqb_neq in Hs.
  unfold catch_analyzeFromUrl, catch_analyzeFromUpload.
  rewrite He, Ha, Hs.
  split; intros H.
  - unfold url_codes in H.
    repeat (apply not_included_cons in H; destruct H as [-> H]).
    split; reflexivity.
  - unfold upload_codes in H.
    repeat (apply not_included_cons in H; destruct H as [-> H]).
    split; reflexivity.
Qed.

(** For the three codes that both routes name (InvalidImageFormat,
    InvalidImageSize, InvalidImage) the two routes give the same status and
    the same message, whatever the status of the service is. *)
Theorem shared_codes_agree (error : js_error) (up : upstream_response)
    (azureError : value) :
  error_response error = Some up ->
  get_field (response_data up) "error" = Some azureError ->
  includes upload_codes (get_field_opt azureError "code") = true ->
  status_of (catch_analyzeFromUrl error) = status_of (catch_analyzeFromUpload error)
  /\ field_of (catch_analyzeFromUrl error) "error"
     = field_of (catch_analyzeFromUpload error) "error"
  /\ field_of (catch_analyzeFromUrl error) "error" <> VStr "Azure API error"
  /\ field_of (catch_analyzeFromUrl error) "error" <> VStr "Rate limit exceeded".
Proof.
  intros He Ha H. unfold catch_analyzeFromUrl, catch_analyzeFromUpload.
  rewrite He, Ha.
  destruct (get_field_opt azureError "code") as [| | | |code| |];
    try discriminate H.
  unfold includes, upload_codes in H. cbn [existsb strict_eq_str] in H.
  repeat (apply orb_prop in H; destruct H as [H|H];
          [apply String.eqb_eq in H; subst code; repeat split; discriminate|]).
  discriminate H.
Qed.

(** ** The comma form of the features field *)

Lemma split_no_comma x : no_comma x = true -> split "," x = [x].
Proof.
  induction x as [|c x IH]; simpl; [reflexivity|].
  intros H. apply andb_prop in H. destruct H as [Hc Hx].
  apply negb_true_iff in Hc. rewrite Hc, (IH Hx). reflexivity.
Qed.

Lemma split_at_comma x rest :
  no_comma x = true -> split "," (x ++ String "," rest) = x :: split "," rest.
Proof.
  induction x as [|c x IH]; simpl; [reflexivity|].
  intros H. apply andb_prop in H. destruct H as [Hc Hx].
  apply negb_true_iff in Hc. rewrite Hc, (IH Hx). reflexivity.
Qed.

Lemma split_not_nil sep s : split sep s <> [].
Proof.
  induction s as [|c s IH]; simpl; [discriminate|].
  destruct (Ascii.eqb c sep); [discriminate|].
  destruct (split sep s); [contradiction|discriminate].
Qed.

Lemma trims_after_space t :
  map trim (split "," (String " " t)) = map trim (split "," t).
Proof.
  cbn [split]. change (Ascii.eqb " " ",") with false. cbv iota.
  destruct (split "," t) as [|h tl] eqn:E.
  - exfalso. exact (split_not_nil _ _ E).
  - reflexivity.
Qed.

Lemma comma_form_names names :
  names <> [] ->
  (forall n, In n names -> plain n = true) ->
  map trim (split "," (join_strings ", " names)) = names.
Proof.
  induction names as [|n rest IH]; intros Hne Hp; [contradiction|].
  assert (Hn : plain n = true) by (apply Hp; left; reflexivity).
  unfold plain in Hn. apply andb_prop in Hn. destruct Hn as [Hc Ht].
  apply String.eqb_eq in Ht.
  destruct rest as [|m rest].
  - cbn [join_strings]. rewrite (split_no_comma _ Hc). cbn [map]. rewrite Ht. reflexivity.
  - change (join_strings ", " (n :: m :: rest))
      with (n ++ String "," (String " " (join_strings ", " (m :: rest)))).
    rewrite (split_at_comma _ _ Hc). cbn [map]. rewrite Ht.
    rewrite trims_after_space. rewrite IH; [reflexivity|discriminate|].
    intros k Hk. apply Hp. right. exact Hk.
Qed.

Lemma valid_names_are_plain n :
  In n validFeatures -> plain n = true /\ n <> "".
Proof.
  unfold validFeatures. cbn [In]. intros H.
  repeat (destruct H as [<-|H]; [split; [reflexivity|discriminate]|]).
  destruct H.
Qed.

Lemma join_not_empty sep n rest : n <> "" -> join_strings sep (n :: rest) <> "".
Proof.
  intros Hn. destruct n as [|c n]; [contradiction|].
  destruct rest; simpl; discriminate.
Qed.

Section CommaForm.

Variable JSON_parse : string -> option value.
Variable AZURE_ENDPOINT AZURE_API_KEY : string.
Variable axios_post : outbound_call -> axios_result.
Variable now : string.

(** The comma form gives back what was written: for a non-empty list of
    names of the fixed set, the text made of the names separated by a comma
    and a space (a text that JSON.parse rejects) is parsed to the same
    names, and the upload route forwards them joined by commas. *)
Theorem comma_form_round_trip (file : file) (names : list string) :
  (1024 <= size file <= 4 * 1024 * 1024)%Z ->
  includes validMimeTypes (VStr (mimetype file)) = true ->
  names <> [] ->
  (forall n, In n names -> In n validFeatures) ->
  JSON_parse (join_strings ", " names) = None ->
  parse_features JSON_parse (join_strings ", " names) [] = (Next (map VStr names), [])
  /\ calls (analyzeFromUpload JSON_parse AZURE_ENDPOINT AZURE_API_KEY axios_post now
              {| req_file := Some file;
                 body_features := Some (join_strings ", " names) |})
     = [upload_call AZURE_ENDPOINT AZURE_API_KEY (buffer file) (join_strings "," names)].
Proof.
  intros Hs Hm Hne Hv Hj.
  assert (Hnames : map trim (split "," (join_strings ", " names)) = names).
  { apply comma_form_names; [exact Hne|].
    intros n Hn. apply valid_names_are_plain. apply Hv. exact Hn. }
  assert (Htext : join_strings ", " names <> "").
  { destruct names as [|n rest]; [contradiction|].
    apply join_not_empty. apply valid_names_are_plain. apply Hv. left. reflexivity. }
  split.
  - unfold parse_features. rewrite Hj, Hnames. reflexivity.
  - rewrite (upload_forward JSON_parse AZURE_ENDPOINT AZURE_API_KEY axios_post now
               file (Some (join_strings ", " names)) names Hs Hm).
    + reflexivity.
    + rewrite (upload_features_parsed _ _ Htext).
      unfold parsed_features. rewrite Hj, Hnames.
      apply check_names_ok. apply unknown_tag_valid_names. exact Hv.
Qed.

End CommaForm.

(** ** The earlier controller *)

Section Earlier.

Variable URL : string -> option urlObject.
Variable JSON_parse : string -> option value.
Variable AZURE_ENDPOINT AZURE_API_KEY : string.
Variable axios_post : outbound_call -> axios_result.
Variable now : string.

Local Abbreviation earlierUrl :=
  (Legacy.analyzeFromUrl URL AZURE_ENDPOINT AZURE_API_KEY axios_post now).
Local Abbreviation earlierUpload :=
  (Legacy.analyzeFromUpload JSON_parse AZURE_ENDPOINT AZURE_API_KEY axios_post now).
Local Abbreviation earlierUrlCall := (Legacy.url_call AZURE_ENDPOINT AZURE_API_KEY).
Local Abbreviation earlierUploadCall := (Legacy.upload_call AZURE_ENDPOINT AZURE_API_KEY).

Lemma earlier_url_forward body names :
  truthy (url body) = true ->
  validateImageUrl URL (url body) = true ->
  or_else (features body) (VArr (map VStr defaultFeatures)) = VArr (map VStr names) ->
  calls (earlierUrl body)
  = [earlierUrlCall (sanitizeUrl (url body)) (join_strings "," names)].
Proof.
  intros H1 H2 Hf.
  unfold Legacy.analyzeFromUrl, Legacy.try_analyzeFromUrl, run, bind, reject_if.
  rewrite H1, H2, Hf. cbn [negb Legacy.join_method].
  rewrite !Array_join_names. unfold text_of, ret, post.
  destruct (axios_post _); reflexivity.
Qed.

(** The earlier URL handler forwards the names as they come: for a url
    that is present and parses with http or https, any array of strings,
    of the fixed set or not, goes to the service joined by commas; there is
    no check of the names and none of the length of the url. *)
Theorem earlier_url_forwards_unchecked (u : value) (names : list string) :
  truthy u = true ->
  validateImageUrl URL u = true ->
  calls (earlierUrl {| url := u; features := VArr (map VStr names) |})
  = [earlierUrlCall (sanitizeUrl u) (join_strings "," names)].
Proof.
  intros H1 H2.
  apply (earlier_url_forward {| url := u; features := VArr (map VStr names) |} names H1 H2).
  reflexivity.
Qed.

(** In the earlier URL handler a features value that is truthy and no
    array has no join method: the handler throws before the call and
    answers 500 Failed to analyze image. *)
Theorem earlier_url_non_array_features_is_500 (u v : value) :
  truthy u = true ->
  validateImageUrl URL u = true ->
  truthy v = true ->
  Array_isArray v = false ->
  earlierUrl {| url := u; features := v |}
  = {| calls := [];
       response :=
         Some {| res_status := 500;
                 res_json := Legacy.failure (VStr "Failed to analyze image") |} |}.
Proof.
  intros H1 H2 Hv Ha.
  unfold Legacy.analyzeFromUrl, Legacy.try_analyzeFromUrl, run, bind, reject_if.
  cbn [url features]. rewrite H1, H2. unfold or_else. rewrite Hv.
  destruct v; try discriminate Ha; reflexivity.
Qed.

(** The current URL handler only restricts the earlier one: whenever it
    forwards a request, the earlier handler forwards the same sanitized url
    with the same feature parameter. *)
Theorem current_forwards_what_earlier_did (body : url_body) :
  url_failure URL body = false ->
  exists sanitizedUrl featureParam,
    calls (analyzeFromUrl URL AZURE_ENDPOINT AZURE_API_KEY axios_post now body)
    = [url_call AZURE_ENDPOINT AZURE_API_KEY sanitizedUrl featureParam]
    /\ calls (earlierUrl body) = [earlierUrlCall sanitizedUrl featureParam].
Proof.
  intros H. destruct (url_passes URL body H) as [H1 [H2 [H3 [names Hf]]]].
  exists (sanitizeUrl (url body)), (join_strings "," names). split.
  - rewrite (url_forward URL AZURE_ENDPOINT AZURE_API_KEY axios_post now body names
               H1 H2 H3 Hf). reflexivity.
  - apply (earlier_url_forward body names H1 H2).
    unfold url_features in Hf. unfold or_else.
    destruct (truthy (features body)) eqn:Ht.
    + destruct (features body) as [| | | | |items|] eqn:E;
        try (unfold respond in Hf; discriminate Hf).
      fold (check_names items) in Hf.
      assert (Hi : existsb unknown_tag items = false).
      { destruct (existsb unknown_tag items) eqn:Ex; [|reflexivity].
        destruct (element_texts (invalid_of items)) as [texts|] eqn:Hx.
        - rewrite (check_names_rejected _ _ Ex Hx) in Hf. discriminate Hf.
        - rewrite (check_names_throws _ Ex Hx) in Hf. discriminate Hf. }
      rewrite (check_names_ok _ Hi) in Hf. injection Hf as ->. reflexivity.
    + unfold ret in Hf. injection Hf as Hf. rewrite <- Hf. reflexivity.
Qed.

(** The earlier upload handler checks the presence of the file only: a
    file of any size and any declared type is forwarded, with whatever list
    of strings the features field yields. *)
Theorem earlier_upload_forwards_any_file (file : file) (field : option string)
    (names : list string) :
  Legacy.upload_features JSON_parse field = VArr (map VStr names) ->
  calls (earlierUpload {| req_file := Some file; body_features := field |})
  = [earlierUploadCall (buffer file) (join_strings "," names)].
Proof.
  intros Hf.
  unfold Legacy.analyzeFromUpload, Legacy.try_analyzeFromUpload, run, bind, ret.
  cbn [req_file body_features]. rewrite Hf. cbn [Legacy.join_method].
  rewrite !Array_join_names. unfold text_of, ret, post.
  destruct (axios_post _); reflexivity.
Qed.

End Earlier.

(** The earlier catch blocks: an upstream error keeps its status and
    shows the message of the service (Azure API error without one); every
    failure without a response, a timeout included, is a 500 with the fixed
    text of the handler. *)
Theorem earlier_error_answers (fallback : string) (error : js_error) :
  (error_response error = None ->
   Legacy.catch_with fallback error
   = Some {| res_status := 500; res_json := Legacy.failure (VStr fallback) |})
  /\ (forall up azureError,
        error_response error = Some up ->
        get_field (response_data up) "error" = Some azureError ->
        status_of (Legacy.catch_with fallback error) = Some (response_status up)
        /\ field_of (Legacy.catch_with fallback error) "success" = VBool false
        /\ field_of (Legacy.catch_with fallback error) "error"
           = or_else (get_field_opt azureError "message") (VStr "Azure API error")
        /\ field_of (Legacy.catch_with fallback error) "code"
           = get_field_opt azureError "code").
Proof.
  unfold Legacy.catch_with. split.
  - intros ->. reflexivity.
  - intros up a -> ->. repeat split.
Qed.

(** ** Concrete runs of the further properties *)

Lemma forwarded_url_call_witness :
  post_data (url_call Node.AZURE_ENDPOINT Node.AZURE_API_KEY
               "https://example.com/cat.jpg" "Description,Tags,Objects,Color")
  = JsonBody (VObj [("url", VStr "https://example.com/cat.jpg")])
  /\ post_timeout (url_call Node.AZURE_ENDPOINT Node.AZURE_API_KEY
                     "https://example.com/cat.jpg" "Description,Tags,Objects,Color")
     = 30000%Z.
Proof.
  destruct (forwarded_url_call_is_validated Node.URL Node.AZURE_ENDPOINT
              Node.AZURE_API_KEY Node.service_ok Node.now Node.cat_url
              (url_call Node.AZURE_ENDPOINT Node.AZURE_API_KEY
                 "https://example.com/cat.jpg" "Description,Tags,Objects,Color")
              (or_introl eq_refl)) as [_ [_ [_ [H1 [H2 _]]]]].
  split; [exact H1|exact H2].
Defined.

Lemma forwarded_upload_call_witness :
  exists file,
    Some Node.cat_jpg = Some file
    /\ (1024 <= size file <= 4 * 1024 * 1024)%Z
    /\ includes validMimeTypes (VStr (mimetype file)) = true.
Proof.
  destruct (forwarded_upload_call_is_validated Node.JSON_parse Node.AZURE_ENDPOINT
              Node.AZURE_API_KEY Node.service_ok Node.now
              {| req_file := Some Node.cat_jpg; body_features := Some "Tags, Objects" |}
              (upload_call Node.AZURE_ENDPOINT Node.AZURE_API_KEY "cat" "Tags,Objects")
              (or_introl eq_refl)) as [file [H1 [H2 [H3 _]]]].
  exists file. split; [exact H1|]. split; [exact H2|exact H3].
Defined.

(** An array that holds one http URL passes the checks of the url as its
    text does, and what is forwarded is the empty string. *)
Lemma non_string_url_witness :
  validateImageUrl Node.URL (VArr [VStr "https://example.com/cat.jpg"]) = true
  /\ calls (analyzeFromUrl Node.URL Node.AZURE_ENDPOINT Node.AZURE_API_KEY
              Node.service_ok Node.now
              {| url := VArr [VStr "https://example.com/cat.jpg"];
                 features := VUndefined |})
     = [url_call Node.AZURE_ENDPOINT Node.AZURE_API_KEY ""
          "Description,Tags,Objects,Color"]
  /\ post_data (url_call Node.AZURE_ENDPOINT Node.AZURE_API_KEY ""
                  "Description,Tags,Objects,Color")
     = JsonBody (VObj [("url", VStr "")]).
Proof.
  split; [reflexivity|]. split; [reflexivity|].
  apply (non_string_url_is_forwarded_empty Node.URL Node.AZURE_ENDPOINT
           Node.AZURE_API_KEY Node.service_ok Node.now
           {| url := VArr [VStr "https://example.com/cat.jpg"]; features := VUndefined |}).
  - simpl. discriminate.
  - left. reflexivity.
Defined.

Lemma local_answers_witness :
  (exists r,
     response (analyzeFromUrl Node.URL Node.AZURE_ENDPOINT Node.AZURE_API_KEY
                 Node.service_ok Node.now
                 {| url := VStr "ftp://example.com/cat.jpg"; features := VUndefined |})
     = Some r
     /\ get_field_opt (res_json r) "success" = VBool false
     /\ (res_status r = 400 \/ res_status r = 500)%Z)
  /\ (exists r,
        response (analyzeFromUpload Node.JSON_parse Node.AZURE_ENDPOINT
                    Node.AZURE_API_KEY Node.service_ok Node.now
                    {| req_file := None; body_features := Some "Tags" |})
        = Some r
        /\ get_field_opt (res_json r) "success" = VBool false
        /\ (res_status r = 400 \/ res_status r = 413
            \/ res_status r = 415 \/ res_status r = 500)%Z).
Proof.
  apply (local_answers_are_failures Node.URL Node.JSON_parse Node.AZURE_ENDPOINT
           Node.AZURE_API_KEY Node.service_ok Node.now
           {| url := VStr "ftp://example.com/cat.jpg"; features := VUndefined |}
           {| req_file := None; body_features := Some "Tags" |}
           eq_refl eq_refl).
Defined.

Lemma url_success_witness :
  exists call up names,
    calls (analyzeFromUrl Node.URL Node.AZURE_ENDPOINT Node.AZURE_API_KEY
             Node.service_ok Node.now Node.cat_url) = [call]
    /\ Node.service_ok call = Fulfilled up
    /\ 200%Z = 200%Z
    /\ VObj [("description", VObj [])] = response_data up
    /\ VStr "r-1" = header "apim-request-id" (response_headers up)
    /\ VArr [VStr "Description"; VStr "Tags"; VStr "Objects"; VStr "Color"]
       = VArr (map VStr names)
    /\ feature_param call = Some (join_strings "," names).
Proof.
  apply (url_success_is_the_service_answer Node.URL Node.AZURE_ENDPOINT
           Node.AZURE_API_KEY Node.service_ok Node.now Node.cat_url
           {| res_status := 200;
              res_json :=
                VObj [("success", VBool true);
                      ("data", VObj [("description", VObj [])]);
                      ("metadata",
                        VObj [("requestId", VStr "r-1");
                              ("timestamp", VStr Node.now);
                              ("featuresUsed",
                                VArr [VStr "Description"; VStr "Tags";
                                      VStr "Objects"; VStr "Color"])])] |}
           eq_refl eq_refl).
Defined.

Lemma upload_success_witness :
  exists file call up names,
    Some Node.cat_jpg = Some file
    /\ calls (analyzeFromUpload Node.JSON_parse Node.AZURE_ENDPOINT Node.AZURE_API_KEY
                Node.service_ok Node.now
                {| req_file := Some Node.cat_jpg; body_features := None |}) = [call]
    /\ Node.service_ok call = Fulfilled up
    /\ 200%Z = 200%Z
    /\ VObj [("description", VObj [])] = response_data up
    /\ VStr "cat.jpg" = VStr (originalname file)
    /\ VNum 1024 = VNum (size file)
    /\ VStr "image/jpeg" = VStr (mimetype file)
    /\ VArr [VStr "Description"; VStr "Tags"; VStr "Objects"; VStr "Color"]
       = VArr (map VStr names)
    /\ post_data call = RawBody (buffer file).
Proof.
  apply (upload_success_is_the_service_answer Node.JSON_parse Node.AZURE_ENDPOINT
           Node.AZURE_API_KEY Node.service_ok Node.now
           {| req_file := Some Node.cat_jpg; body_features := None |}
           {| res_status := 200;
              res_json :=
                VObj [("success", VBool true);
                      ("data", VObj [("description", VObj [])]);
                      ("metadata",
                        VObj [("filename", VStr "cat.jpg");
                              ("size", VNum 1024);
                              ("mimeType", VStr "image/jpeg");
                              ("featuresUsed",
                                VArr [VStr "Description"; VStr "Tags";
                                      VStr "Objects"; VStr "Color"]);
                              ("requestId", VStr "r-1");
                              ("timestamp", VStr Node.now)])] |}
           eq_refl eq_refl).
Defined.

Lemma rejection_that_throws_witness :
  analyzeFromUrl Node.URL Node.AZURE_ENDPOINT Node.AZURE_API_KEY Node.service_ok Node.now
    {| url := VStr "https://example.com/cat.jpg";
       features := VArr [VObj [("toString", VNum 1)]] |}
  = {| calls := [];
       response :=
         Some {| res_status := 500;
                 res_json := failure "Failed to analyze image"
                   "An unexpected error occurred. Please try again later." |} |}.
Proof.
  apply (rejection_that_throws_is_500 Node.URL Node.AZURE_ENDPOINT Node.AZURE_API_KEY
           Node.service_ok Node.now (VStr "https://example.com/cat.jpg")
           [VObj [("toString", VNum 1)]] eq_refl eq_refl eq_refl eq_refl eq_refl).
Defined.

Lemma advertised_features_witness :
  calls (analyzeFromUrl Node.URL Node.AZURE_ENDPOINT Node.AZURE_API_KEY
           Node.service_ok Node.now
           {| url := VStr "https://example.com/cat.jpg";
              features := VArr [VStr "Categories"; VStr "Adult"; VStr "Adult"] |})
  = [url_call Node.AZURE_ENDPOINT Node.AZURE_API_KEY "https://example.com/cat.jpg"
       "Categories,Adult,Adult"].
Proof.
  assert (H : forall n, In n ["Categories"; "Adult"; "Adult"] -> In n Routes.advertised).
  { intros n Hn. simpl in Hn. vm_compute.
    destruct Hn as [<-|[<-|[<-|[]]]]; tauto. }
  destruct (advertised_features_are_accepted Node.URL Node.AZURE_ENDPOINT
              Node.AZURE_API_KEY Node.service_ok Node.now
              (VStr "https://example.com/cat.jpg") ["Categories"; "Adult"; "Adult"]
              eq_refl eq_refl eq_refl H) as [H1 _].
  exact H1.
Defined.

Lemma upstream_status_witness :
  status_of (catch_analyzeFromUrl (Node.rate_limited "InvalidImage")) = Some 429%Z
  /\ field_of (catch_analyzeFromUpload (Node.rate_limited "InvalidImage")) "code"
     = VStr "InvalidImage".
Proof.
  destruct (upstream_status_is_preserved (Node.rate_limited "InvalidImage")
              {| response_status := 429;
                 response_data :=
                   VObj [("error", VObj [("code", VStr "InvalidImage");
                                         ("message", VStr "Too many calls")])];
                 response_headers := [] |}
              (VObj [("code", VStr "InvalidImage"); ("message", VStr "Too many calls")])
              eq_refl eq_refl) as [H1 [_ [_ [_ [_ H6]]]]].
  split; [exact H1|exact H6].
Defined.

Lemma unnamed_code_witness :
  field_of (catch_analyzeFromUpload
              {| error_response :=
                   Some {| response_status := 400;
                           response_data :=
                             VObj [("error", VObj [("code", VStr "BadArgument");
                                                   ("message", VStr "Bad list")])];
                           response_headers := [] |};
                 error_code := None |}) "details" = VStr "Bad list".
Proof.
  assert (Hs : (400 <> 429)%Z) by discriminate.
  destruct (unnamed_code_gives_service_message
              {| error_response :=
                   Some {| response_status := 400;
                           response_data :=
                             VObj [("error", VObj [("code", VStr "BadArgument");
                                                   ("message", VStr "Bad list")])];
                           response_headers := [] |};
                 error_code := None |}
              {| response_status := 400;
                 response_data :=
                   VObj [("error", VObj [("code", VStr "BadArgument");
                                         ("message", VStr "Bad list")])];
                 response_headers := [] |}
              (VObj [("code", VStr "BadArgument"); ("message", VStr "Bad list")])
              eq_refl eq_refl Hs) as [_ H].
  destruct (H eq_refl) as [_ Hd]. exact Hd.
Defined.

Lemma shared_codes_witness :
  field_of (catch_analyzeFromUrl (Node.rate_limited "InvalidImageSize")) "error"
  = field_of (catch_analyzeFromUpload (Node.rate_limited "InvalidImageSize")) "error".
Proof.
  destruct (shared_codes_agree (Node.rate_limited "InvalidImageSize")
              {| response_status := 429;
                 response_data :=
                   VObj [("error", VObj [("code", VStr "InvalidImageSize");
                                         ("message", VStr "Too many calls")])];
                 response_headers := [] |}
              (VObj [("code", VStr "InvalidImageSize"); ("message", VStr "Too many calls")])
              eq_refl eq_refl eq_refl) as [_ [H _]].
  exact H.
Defined.

Lemma comma_form_witness :
  join_strings ", " ["Faces"; "Brands"; "Color"] = "Faces, Brands, Color"
  /\ calls (analyzeFromUpload Node.JSON_parse Node.AZURE_ENDPOINT Node.AZURE_API_KEY
              Node.service_ok Node.now
              {| req_file := Some Node.cat_jpg;
                 body_features := Some "Faces, Brands, Color" |})
     = [upload_call Node.AZURE_ENDPOINT Node.AZURE_API_KEY "cat" "Faces,Brands,Color"].
Proof.
  assert (Hs : (1024 <= size Node.cat_jpg <= 4 * 1024 * 1024)%Z) by (simpl; lia).
  assert (Hne : ["Faces"; "Brands"; "Color"] <> []) by discriminate.
  assert (Hv : forall n, In n ["Faces"; "Brands"; "Color"] -> In n validFeatures).
  { intros n Hn. simpl in Hn. vm_compute.
    destruct Hn as [<-|[<-|[<-|[]]]]; tauto. }
  destruct (comma_form_round_trip Node.JSON_parse Node.AZURE_ENDPOINT Node.AZURE_API_KEY
              Node.service_ok Node.now Node.cat_jpg ["Faces"; "Brands"; "Color"]
              Hs eq_refl Hne Hv eq_refl) as [_ H].
  split; [reflexivity|exact H].
Defined.

Lemma earlier_url_forwards_witness :
  calls (Legacy.analyzeFromUrl Node.URL Node.AZURE_ENDPOINT Node.AZURE_API_KEY
           Node.service_ok Node.now
           {| url := VStr "https://example.com/cat.jpg";
              features := VArr [VStr "Bogus"; VStr "Tags"] |})
  = [Legacy.url_call Node.AZURE_ENDPOINT Node.AZURE_API_KEY
       "https://example.com/cat.jpg" "Bogus,Tags"].
Proof.
  apply (earlier_url_forwards_unchecked Node.URL Node.AZURE_ENDPOINT Node.AZURE_API_KEY
           Node.service_ok Node.now (VStr "https://example.com/cat.jpg")
           ["Bogus"; "Tags"] eq_refl eq_refl).
Defined.

Lemma earlier_url_non_array_witness :
  Legacy.analyzeFromUrl Node.URL Node.AZURE_ENDPOINT Node.AZURE_API_KEY
    Node.service_ok Node.now
    {| url := VStr "https://example.com/cat.jpg"; features := VStr "Tags" |}
  = {| calls := [];
       response :=
         Some {| res_status := 500;
                 res_json := Legacy.failure (VStr "Failed to analyze image") |} |}.
Proof.
  apply (earlier_url_non_array_features_is_500 Node.URL Node.AZURE_ENDPOINT
           Node.AZURE_API_KEY Node.service_ok Node.now
           (VStr "https://example.com/cat.jpg") (VStr "Tags")
           eq_refl eq_refl eq_refl eq_refl).
Defined.

Lemma current_forwards_witness :
  exists sanitizedUrl featureParam,
    calls (analyzeFromUrl Node.URL Node.AZURE_ENDPOINT Node.AZURE_API_KEY
             Node.service_ok Node.now Node.cat_url)
    = [url_call Node.AZURE_ENDPOINT Node.AZURE_API_KEY sanitizedUrl featureParam]
    /\ calls (Legacy.analyzeFromUrl Node.URL Node.AZURE_ENDPOINT Node.AZURE_API_KEY
                Node.service_ok Node.now Node.cat_url)
       = [Legacy.url_call Node.AZURE_ENDPOINT Node.AZURE_API_KEY sanitizedUrl featureParam].
Proof.
  apply (current_forwards_what_earlier_did Node.URL Node.AZURE_ENDPOINT
           Node.AZURE_API_KEY Node.service_ok Node.now Node.cat_url eq_refl).
Defined.

Lemma earlier_upload_forwards_witness :
  calls (Legacy.analyzeFromUpload Node.JSON_parse Node.AZURE_ENDPOINT Node.AZURE_API_KEY
           Node.service_ok Node.now
           {| req_file := Some {| originalname := "notes.txt"; mimetype := "text/plain";
                                  size := 12; buffer := "hello, world" |};
              body_features := Some "Tags, Bogus" |})
  = [Legacy.upload_call Node.AZURE_ENDPOINT Node.AZURE_API_KEY "hello, world" "Tags,Bogus"].
Proof.
  apply (earlier_upload_forwards_any_file Node.JSON_parse Node.AZURE_ENDPOINT
           Node.AZURE_API_KEY Node.service_ok Node.now
           {| originalname := "notes.txt"; mimetype := "text/plain";
              size := 12; buffer := "hello, world" |}
           (Some "Tags, Bogus") ["Tags"; "Bogus"] eq_refl).
Defined.

(** The earlier handlers answer a timeout like any other failure without a
    response. *)
Example earlier_timeout_is_500 :
  Legacy.catch_analyzeFromUrl (Node.no_response "ECONNABORTED")
  = Some {| res_status := 500;
            res_json := Legacy.failure (VStr "Failed to analyze image") |}.
Proof. reflexivity. Qed.

(** ** Numbers in the text of a rejection *)

(** Numbers print as Number::toString prints them: plain digits up to
    21 of them, the exponent form beyond, and the shortest digits that
    read back as the same double. *)
Example number_texts :
  map string_of_Z [0; 7; -42; 2 ^ 53; 2 ^ 60; 10 ^ 21 - 1; 10 ^ 21; 10 ^ 23;
                   15 * 10 ^ 299; - 10 ^ 22; 2 ^ 1024]%Z
  = ["0"; "7"; "-42"; "9007199254740992"; "1152921504606847000";
     "1e+21"; "1e+21"; "1e+23"; "1.5e+300"; "-1e+22"; "Infinity"].
Proof. vm_compute. reflexivity. Qed.

Example number_in_rejection :
  analyzeFromUrl Node.URL Node.AZURE_ENDPOINT Node.AZURE_API_KEY Node.service_ok Node.now
    {| url := VStr "https://example.com/cat.jpg";
       features := VArr [VNum (10 ^ 21); VStr "Tags"] |}
  = {| calls := []; response := Some (names_rejection ["1e+21"]) |}.
Proof. vm_compute. reflexivity. Qed.
